(** * sales_bot: catalog store, AI dialog and command router

    A shallow embedding of [src/sales_bot.py].  Python coroutines become
    computations in a small state-and-exception monad over a [World] that
    holds the SQLite file and the sequence of calls made to the outside
    (Telegram replies, callback acknowledgements, Gemini requests).  The
    handler registration performed by [main] is embedded as data, and the
    dispatch rules of the bot framework (first accepting handler of a
    group; conversation states kept per chat and user) are written out as
    functions over it.

    Not modelled: logging calls (they have no effect on replies or state),
    failures of the Telegram transport itself (every send succeeds),
    updates other than user messages and button presses, and a products
    table created by someone else with other columns. *)

From stdpp Require Import gmap strings list.
From Stdlib Require Import ZArith DecimalString Lia.

Open Scope Z_scope.
Open Scope string_scope.

(** ** Values exchanged with the outside *)

Module Telegram.

Record InlineKeyboardButton := {
  label : string;
  callback_data : string
}.

Definition InlineKeyboardMarkup := list (list InlineKeyboardButton).

Record User := {
  user_id : Z;
  full_name : string;
  (** text produced by [user.mention_html()] *)
  mention_html : string
}.

(** A user message.  [text] is [None] for photos, stickers and the like.
    [bot_command] is the name, in lower case, carried by a bot-command
    entity that starts the text (entities[0], offset 0); a suffix naming
    this bot is dropped, a suffix naming another bot is kept, so that such
    a command matches no registered name but is still a command.  It is
    what [CommandHandler] and [filters.COMMAND] look at. *)
Record Message := {
  text : option string;
  bot_command : option string
}.

(** A button press; it always comes from a button under one of the
    bot's own messages in the chat. *)
Record CallbackQuery := {
  data : string
}.

Record Update := {
  effective_chat : Z;
  effective_user : User;
  callback_query : option CallbackQuery;
  message : option Message
}.

End Telegram.
Export Telegram.

(** Calls made to the outside, in the order they are made. *)
Inductive Action :=
| answer_callback_query
| edit_message_text (body : string) (parse_mode : option string)
| reply_text (body : string) (reply_markup : option InlineKeyboardMarkup)
| reply_html (body : string) (reply_markup : option InlineKeyboardMarkup)
| send_action (kind : string)
| generate_content (prompt : string).

(** Messages the user gets to see. *)
Definition is_message (a : Action) : bool :=
  match a with
  | edit_message_text _ _ | reply_text _ _ | reply_html _ _ => true
  | _ => false
  end.

Definition is_ai_call (a : Action) : bool :=
  match a with generate_content _ => true | _ => false end.

Definition is_acknowledgement (a : Action) : bool :=
  match a with answer_callback_query => true | _ => false end.

Definition count_if (p : Action -> bool) (l : list Action) : nat :=
  length (List.filter p l).

(** ** The products table *)

(** [price REAL NOT NULL]: prices are carried as an exact number of
    hundredths, so that 1200.00 is [120000]. *)
Record ProductRow := {
  id : Z;
  name : string;
  description : option string;
  price : Z;
  image_url : option string
}.

(** What [SELECT name, description, price, image_url] yields per row. *)
Definition Product : Type := string * option string * Z * option string.

Definition selected (r : ProductRow) : Product :=
  (name r, description r, price r, image_url r).

(** The table with the counter behind [AUTOINCREMENT]. *)
Record Table := {
  rows : list ProductRow;
  seq : Z
}.

(** The file [bot_database.db].  It cannot be opened; or it opens and
    takes writes; or it opens and can be read but refuses every write (a
    read-only file).  In the last two cases the products table has or has
    not been created. *)
Inductive Database :=
| Unreachable
| File (products : option Table)
| ReadOnly (products : option Table).

(** ** Effects *)

Inductive exn :=
| OperationalError
| AttributeError
| ProviderError (msg : string).

Inductive outcome (A : Type) :=
| Return (a : A)
| Raise (e : exn).
Arguments Return {A} a.
Arguments Raise {A} e.

Record World := {
  db : Database;
  outbox : list Action
}.

Definition M (A : Type) : Type := World -> outcome A * World.

Definition ret {A} (a : A) : M A := fun w => (Return a, w).

Definition raise {A} (e : exn) : M A := fun w => (Raise e, w).

Definition bind {A B} (c : M A) (k : A -> M B) : M B :=
  fun w =>
    match c w with
    | (Return a, w') => k a w'
    | (Raise e, w') => (Raise e, w')
    end.

(** [try: ... except Exception: ...] *)
Definition try_except {A} (body : M A) (handler : exn -> M A) : M A :=
  fun w =>
    match body w with
    | (Return a, w') => (Return a, w')
    | (Raise e, w') => handler e w'
    end.

Notation "'let*' x := c 'in' k" := (bind c (fun x => k))
  (at level 10, x name, c at level 100, k at level 200).
Notation "c ;; k" := (bind c (fun _ => k))
  (at level 100, k at level 200, right associativity).

(** Append one outside call to the record. *)
Definition emit (a : Action) : M unit :=
  fun w => (Return tt, {| db := db w; outbox := outbox w ++ [a] |}).

Definition get_db : M Database := fun w => (Return (db w), w).

Definition put_db (d : Database) : M unit :=
  fun w => (Return tt, {| db := d; outbox := outbox w |}).

(** ** SQLite statements used by the bot *)

Module sqlite3.

(** [sqlite3.connect(DATABASE_NAME)] *)
Definition connect : M unit :=
  let* d := get_db in
  match d with
  | Unreachable => raise OperationalError
  | File _ | ReadOnly _ => ret tt
  end.

(** [CREATE TABLE IF NOT EXISTS products (...)]: nothing to do when the
    table is there; creating it is a write. *)
Definition create_table_if_not_exists : M unit :=
  let* d := get_db in
  match d with
  | Unreachable => raise OperationalError
  | File None => put_db (File (Some {| rows := []; seq := 0 |}))
  | ReadOnly None => raise OperationalError
  | File (Some _) | ReadOnly (Some _) => ret tt
  end.

(** [SELECT COUNT( * ) FROM products], then [fetchone()[0]] *)
Definition select_count : M Z :=
  let* d := get_db in
  match d with
  | File (Some t) | ReadOnly (Some t) => ret (Z.of_nat (length (rows t)))
  | _ => raise OperationalError
  end.

(** [INSERT INTO products (name, description, price, image_url) VALUES
    (?, ?, ?, ?)]; the row is appended and numbered after the counter.
    A file that refuses writes raises. *)
Definition insert (n : string) (d : option string) (p : Z)
    (i : option string) : M unit :=
  let* f := get_db in
  match f with
  | File (Some t) =>
      let r := {| id := seq t + 1; name := n; description := d;
                  price := p; image_url := i |} in
      put_db (File (Some {| rows := rows t ++ [r]; seq := seq t + 1 |}))
  | _ => raise OperationalError
  end.

(** [SELECT name, description, price, image_url FROM products], then
    [fetchall()]: the rows in the order they were inserted. *)
Definition select_products : M (list Product) :=
  let* d := get_db in
  match d with
  | File (Some t) | ReadOnly (Some t) => ret (map selected (rows t))
  | _ => raise OperationalError
  end.

(** [conn.commit()] and [conn.close()]: a statement above either takes
    effect at once or raises, so neither changes anything. *)
Definition commit : M unit := ret tt.
Definition close : M unit := ret tt.

End sqlite3.

(** ** Catalog store *)

Definition sample_products : list Product :=
  [ ("Ноутбук ProX", Some "Мощный ноутбук для работы и игр.", 120000,
     Some "https://upload.wikimedia.org/wikipedia/commons/thumb/b/b3/Laptop_computer_on_table.jpg/640px-Laptop_computer_on_table.jpg");
    ("Смартфон Ultra", Some "Флагманский смартфон с лучшей камерой.", 80000,
     Some "https://upload.wikimedia.org/wikipedia/commons/thumb/c/c2/IPhone_14_Pro_Max_mockup.png/640px-IPhone_14_Pro_Max_mockup.png") ].

Definition init_db : M unit :=
  try_except
    (sqlite3.connect ;;
     sqlite3.create_table_if_not_exists ;;
     let* n := sqlite3.select_count in
     (if Z.eqb n 0 then
        sqlite3.insert "Ноутбук ProX" (Some "Мощный ноутбук для работы и игр.") 120000
          (Some "https://upload.wikimedia.org/wikipedia/commons/thumb/b/b3/Laptop_computer_on_table.jpg/640px-Laptop_computer_on_table.jpg") ;;
        sqlite3.insert "Смартфон Ultra" (Some "Флагманский смартфон с лучшей камерой.") 80000
          (Some "https://upload.wikimedia.org/wikipedia/commons/thumb/c/c2/IPhone_14_Pro_Max_mockup.png/640px-IPhone_14_Pro_Max_mockup.png") ;;
        sqlite3.commit
      else ret tt) ;;
     sqlite3.close)
    (fun _ => ret tt).

Definition get_products : M (list Product) :=
  try_except
    (sqlite3.connect ;;
     let* products := sqlite3.select_products in
     sqlite3.close ;;
     ret products)
    (fun _ => ret []).

(** ** Texts and the two-button menu *)

Definition nl : string := String (Ascii.ascii_of_nat 10) EmptyString.

(** The keyboard every handler attaches: the source spells it out at
    each use. *)
Definition main_keyboard : InlineKeyboardMarkup :=
  [ [ {| label := "Посмотреть товары"; callback_data := "show_products" |};
      {| label := "Задать вопрос ИИ"; callback_data := "ask_ai" |} ] ].

Definition AI_UNAVAILABLE : string :=
  "Извините, функция ИИ сейчас недоступна. Пожалуйста, убедитесь, что GOOGLE_API_KEY установлен правильно.".

Definition AI_READY : string :=
  "Я готов отвечать на ваши вопросы! Спросите меня о чем угодно. "
  ++ "Чтобы закончить диалог с ИИ, введите /done".

Definition AI_REPROMPT : string :=
  "Пожалуйста, введите ваш вопрос текстом.".

Definition AI_APOLOGY : string :=
  "Извините, произошла ошибка при обработке вашего запроса ИИ. Пожалуйста, попробуйте еще раз.".

Definition AI_CLOSING : string :=
  "Диалог с ИИ завершен. Чем еще могу помочь?".

Definition NEXT_ACTION : string := "Выберите следующее действие:".

Definition NO_PRODUCTS : string := "В магазине пока нет товаров.".

Definition LISTING_HEADER : string :=
  "Вот что есть в нашем магазине:" ++ nl ++ nl.

Definition UNKNOWN_INPUT : string :=
  "Извините, я не понял вашу команду. Используйте кнопки для взаимодействия.".

Definition HELP_TEXT : string :=
  "Используйте команды: /start, /help." ++ nl
  ++ "Или кнопки для взаимодействия.".

(** Python truthiness of an optional string: [None] and the empty string
    are falsy. *)
Definition truthy (s : option string) : bool :=
  match s with
  | Some (String _ _) => true
  | _ => false
  end.

Definition decimal (n : Z) : string :=
  NilZero.string_of_uint (N.to_uint (Z.to_N n)).

(** [f"{price:.2f}"] on a price given in hundredths. *)
Definition format_2f (p : Z) : string :=
  let a := Z.abs p in
  let cents := a mod 100 in
  (if Z.ltb p 0 then "-" else "")
  ++ decimal (a / 100) ++ "."
  ++ (if Z.ltb cents 10 then "0" else "") ++ decimal cents.

(** [f"{description}"]: Python prints a missing value as [None]. *)
Definition format_optional (s : option string) : string :=
  match s with
  | Some t => t
  | None => "None"
  end.

(** One turn of the loop over the fetched products. *)
Definition product_block (p : Product) : string :=
  let '(name, description, price, image_url) := p in
  "<b>" ++ name ++ "</b>" ++ nl
  ++ "Описание: " ++ format_optional description ++ nl
  ++ "Цена: $" ++ format_2f price ++ nl
  ++ (if truthy image_url
      then "Изображение: " ++ format_optional image_url ++ nl
      else "")
  ++ nl.

Definition listing (products : list Product) : string :=
  fold_left (fun response_text p => response_text ++ product_block p)
    products LISTING_HEADER.

(** ** Attribute access that may fail *)

(** [update.message.<...>]: raises when the update carries no message. *)
Definition update_message (u : Update) : M Message :=
  match message u with
  | Some m => ret m
  | None => raise AttributeError
  end.

(** ** Stateless responders *)

Definition start_command (u : Update) : M unit :=
  let user := effective_user u in
  update_message u ;;
  emit (reply_html
          ("Привет, " ++ mention_html user
           ++ "! Я бот-магазин. Выберите действие:")
          (Some main_keyboard)).

Definition help_command (u : Update) : M unit :=
  update_message u ;;
  emit (reply_text HELP_TEXT None).

Definition show_products_callback (u : Update) : M unit :=
  match callback_query u with
  | None => raise AttributeError
  | Some query =>
      emit answer_callback_query ;;
      let* products := get_products in
      match products with
      | _ :: _ =>
          emit (edit_message_text (listing products) (Some "HTML")) ;;
          emit (reply_text NEXT_ACTION (Some main_keyboard))
      | [] =>
          emit (edit_message_text NO_PRODUCTS None) ;;
          emit (reply_text NEXT_ACTION (Some main_keyboard))
      end
  end.

Definition unknown_command (u : Update) : M unit :=
  update_message u ;;
  emit (reply_text UNKNOWN_INPUT (Some main_keyboard)).

(** ** The bot framework: handlers, filters, conversations *)

Module ext.

(** A registered handler: the test it applies to an update and the
    coroutine it runs.  The coroutine's result is the conversation state
    it asks for, [None] when it returns nothing. *)
Record Handler := {
  check_update : Update -> bool;
  callback : Update -> M (option Z)
}.

Definition returning_none (f : Update -> M unit) : Update -> M (option Z) :=
  fun u => f u ;; ret None.

Definition returning_state (f : Update -> M Z) : Update -> M (option Z) :=
  fun u => let* s := f u in ret (Some s).

Module filters.
Definition TEXT (m : Message) : bool := truthy (text m).
Definition COMMAND (m : Message) : bool :=
  match bot_command m with Some _ => true | None => false end.
End filters.

(** [CommandHandler(command, callback)] *)
Definition CommandHandler (command : string) (cb : Update -> M (option Z))
    : Handler :=
  {| check_update := fun u =>
       match message u with
       | Some m =>
           match bot_command m with
           | Some c => truthy (text m) && String.eqb c command
           | None => false
           end
       | None => false
       end;
     callback := cb |}.

(** [re.match("^" + p + "$", data)]: the data is [p], possibly followed
    by one line break. *)
Definition anchored_match (p data : string) : bool :=
  String.eqb data p || String.eqb data (p ++ nl).

(** [CallbackQueryHandler(callback, pattern="^p$")] *)
Definition CallbackQueryHandler (cb : Update -> M (option Z)) (p : string)
    : Handler :=
  {| check_update := fun u =>
       match callback_query u with
       | Some q => anchored_match p (data q)
       | None => false
       end;
     callback := cb |}.

(** [MessageHandler(filter, callback)] *)
Definition MessageHandler (f : Message -> bool) (cb : Update -> M (option Z))
    : Handler :=
  {| check_update := fun u =>
       match message u with
       | Some m => f m
       | None => false
       end;
     callback := cb |}.

Definition END : Z := -1.

(** Conversations are kept per chat and per user. *)
Definition ConversationKey : Type := Z * Z.

Definition key_of (u : Update) : ConversationKey :=
  (effective_chat u, user_id (effective_user u)).

Record ConversationHandler := {
  entry_points : list Handler;
  states : gmap Z (list Handler);
  fallbacks : list Handler
}.

Fixpoint first_accepting (hs : list Handler) (u : Update) : option Handler :=
  match hs with
  | [] => None
  | h :: hs' => if check_update h u then Some h else first_accepting hs' u
  end.

(** Which handler of the conversation takes the update.  Without a
    stored state only the entry points are asked; with one, the handlers
    of that state and then the fallbacks. *)
Definition conversation_check (c : ConversationHandler)
    (conversations : gmap ConversationKey Z) (u : Update) : option Handler :=
  match conversations !! key_of u with
  | None => first_accepting (entry_points c) u
  | Some state =>
      match first_accepting (default [] (states c !! state)) u with
      | Some h => Some h
      | None => first_accepting (fallbacks c) u
      end
  end.

(** What the conversation does with the state a handler returned. *)
Definition update_state (new_state : option Z) (key : ConversationKey)
    (conversations : gmap ConversationKey Z) : gmap ConversationKey Z :=
  match new_state with
  | Some s =>
      if Z.eqb s END then
        match conversations !! key with
        | Some _ => delete key conversations
        | None => conversations
        end
      else <[key := s]> conversations
  | None => conversations
  end.

Inductive Registration :=
| Plain (h : Handler)
| Conversation (c : ConversationHandler).

Inductive Selected :=
| Outside (h : Handler)
| Inside (h : Handler).

Definition selected_handler (s : Selected) : Handler :=
  match s with Outside h | Inside h => h end.

(** Handlers of one group are asked in registration order; the first
    that accepts is the only one to run. *)
Fixpoint select (rs : list Registration)
    (conversations : gmap ConversationKey Z) (u : Update) : option Selected :=
  match rs with
  | [] => None
  | Plain h :: rs' =>
      if check_update h u then Some (Outside h)
      else select rs' conversations u
  | Conversation c :: rs' =>
      match conversation_check c conversations u with
      | Some h => Some (Inside h)
      | None => select rs' conversations u
      end
  end.

(** The running application: the world and the conversation states.
    [main] registers a single conversation, so one table of states is
    enough. *)
Record Application := {
  world : World;
  conversations : gmap ConversationKey Z
}.

(** One update, handled to the end.  An exception escaping a handler is
    caught by the application; the conversation state is then kept. *)
Definition process_update (rs : list Registration) (a : Application)
    (u : Update) : Application :=
  match select rs (conversations a) u with
  | None => a
  | Some (Outside h) =>
      {| world := snd (callback h u (world a));
         conversations := conversations a |}
  | Some (Inside h) =>
      match callback h u (world a) with
      | (Return new_state, w) =>
          {| world := w;
             conversations :=
               update_state new_state (key_of u) (conversations a) |}
      | (Raise _, w) =>
          {| world := w; conversations := conversations a |}
      end
  end.

Definition run (rs : list Registration) (a : Application)
    (us : list Update) : Application :=
  fold_left (process_update rs) us a.

End ext.
Export ext.

(** ** AI gateway and dialog *)

(** The provider: given what has been sent so far and a prompt, it
    answers with a text or fails. *)
Definition GenerativeModel : Type := list Action -> string -> outcome string.

Definition ASK_AI_QUESTION : Z := 1.

Section Bot.

(** The module-level [model]: [None] when no API key is configured. *)
Variable model : option GenerativeModel.

(** [model.generate_content(prompt).text] *)
Definition generate (g : GenerativeModel) (prompt : string) : M string :=
  fun w =>
    (g (outbox w) prompt,
     {| db := db w; outbox := outbox w ++ [generate_content prompt] |}).

Definition ask_ai_entry_point (u : Update) : M Z :=
  let query := callback_query u in
  (* the part after [message_to_edit] has been chosen *)
  let with_message_to_edit : M Z :=
    match model with
    | None =>
        emit (reply_text AI_UNAVAILABLE None) ;;
        ret END
    | Some _ =>
        emit (reply_text AI_READY None) ;;
        (match query with
         | Some _ => emit (reply_text NEXT_ACTION (Some main_keyboard))
         | None => ret tt
         end) ;;
        ret ASK_AI_QUESTION
    end in
  match query with
  | Some _ =>
      emit answer_callback_query ;;
      with_message_to_edit
  | None =>
      match message u with
      | Some _ => with_message_to_edit
      | None => ret END
      end
  end.

Definition handle_ai_question (u : Update) : M Z :=
  let* m := update_message u in
  let user_question := text m in
  if negb (truthy user_question) then
    emit (reply_text AI_REPROMPT None) ;;
    ret ASK_AI_QUESTION
  else
    match model with
    | None =>
        emit (reply_text AI_UNAVAILABLE None) ;;
        ret END
    | Some g =>
        try_except
          (emit (send_action "typing") ;;
           let* ai_response := generate g (default "" user_question) in
           emit (reply_text ai_response None))
          (fun _ => emit (reply_text AI_APOLOGY None)) ;;
        ret ASK_AI_QUESTION
    end.

Definition done_ai_dialog (u : Update) : M Z :=
  update_message u ;;
  emit (reply_text AI_CLOSING (Some main_keyboard)) ;;
  ret END.

(** ** Registration done by [main] *)

Definition text_not_command (m : Message) : bool :=
  filters.TEXT m && negb (filters.COMMAND m).

Definition conv_handler : ConversationHandler :=
  {| entry_points :=
       [ CallbackQueryHandler (returning_state ask_ai_entry_point) "ask_ai" ];
     states :=
       {[ ASK_AI_QUESTION :=
            [ MessageHandler text_not_command
                (returning_state handle_ai_question);
              CommandHandler "done" (returning_state done_ai_dialog) ] ]};
     fallbacks :=
       [ CommandHandler "done" (returning_state done_ai_dialog) ] |}.

Definition handlers : list Registration :=
  [ Plain (CommandHandler "start" (returning_none start_command));
    Plain (CommandHandler "help" (returning_none help_command));
    Plain (CallbackQueryHandler (returning_none show_products_callback)
             "show_products");
    Conversation conv_handler;
    Plain (MessageHandler text_not_command (returning_none unknown_command)) ].

(** [main]: initialise the store, then poll with no conversation open. *)
Definition main (d : Database) : Application :=
  {| world := snd (init_db {| db := d; outbox := [] |});
     conversations := ∅ |}.

End Bot.

(** ** Start-up configuration *)

(** The three settings the module reads with [os.getenv]. *)
Record Environ := {
  TELEGRAM_BOT_TOKEN : option string;
  GOOGLE_API_KEY : option string;
  ADMIN_TELEGRAM_ID : option string
}.

(** How the module-level code ends: an uncaught exception, [exit(code)],
    or a configured bot ready for [main]. *)
Inductive Startup :=
| Crashed (e : exn)
| Exited (code : Z)
| Configured (model : option GenerativeModel) (admin : Z).

Section StartUp.

(** Python's [int] on a string, and the two provider calls
    [genai.configure(api_key=...)], [genai.GenerativeModel("gemini-pro")]. *)
Variable int : string -> outcome Z.
Variable connect_model : string -> outcome GenerativeModel.

Definition configure (env : Environ) : Startup :=
  match int (default "0" (ADMIN_TELEGRAM_ID env)) with
  | Raise e => Crashed e
  | Return admin =>
      if negb (truthy (TELEGRAM_BOT_TOKEN env)) then Exited 1
      else
        Configured
          (if truthy (GOOGLE_API_KEY env) then
             match connect_model (default "" (GOOGLE_API_KEY env)) with
             | Return g => Some g
             | Raise _ => None
             end
           else None)
          admin
  end.

End StartUp.

(** * Vocabulary of the properties *)

(** ** Stores and worlds *)

(** An empty store that can be seeded: the file takes writes, and the
    table is missing or has no row. *)
Definition is_empty_store (d : Database) : bool :=
  match d with
  | File None => true
  | File (Some t) => match rows t with [] => true | _ => false end
  | Unreachable | ReadOnly _ => false
  end.

(** The store cannot be read: the file does not open or the table is
    missing. *)
Definition unreadable (d : Database) : bool :=
  match d with
  | Unreachable | File None | ReadOnly None => true
  | File (Some _) | ReadOnly (Some _) => false
  end.

(** The world after the calls [l] have been made. *)
Definition sent (w : World) (l : list Action) : World :=
  {| db := db w; outbox := outbox w ++ l |}.

(** ** Dialog *)

(** The reply to a question: the provider's text, or the apology when
    the provider fails. *)
Definition answer_or_apology (g : GenerativeModel) (w : World)
    (question : string) : string :=
  match g (outbox w ++ [send_action "typing"])%list question with
  | Return ai_response => ai_response
  | Raise _ => AI_APOLOGY
  end.

(** Outcome of a handler that ran inside the conversation. *)
Definition conversation_result (a : Application) (u : Update)
    (r : outcome Z * World) : Application :=
  match r with
  | (Return new_state, w) =>
      {| world := w;
         conversations :=
           update_state (Some new_state) (key_of u) (conversations a) |}
  | (Raise _, w) => {| world := w; conversations := conversations a |}
  end.

(** The values a dialog coroutine may hand back. *)
Definition dialog_value (s : Z) : Prop := s = ASK_AI_QUESTION \/ s = END.

(** Every stored state is the one state [main] declares. *)
Definition states_declared (convs : gmap ConversationKey Z) : Prop :=
  forall k s, convs !! k = Some s -> s = ASK_AI_QUESTION.

(** A handler that only ever asks for a dialog value, or for no change. *)
Definition asks_dialog_value (h : Handler) : Prop :=
  forall u w,
    match fst (callback h u w) with
    | Return (Some s) => dialog_value s
    | Return None | Raise _ => True
    end.

(** ** Registered handlers *)

(** A property that holds of every handler of a conversation. *)
Definition conversation_all (P : Handler -> Prop) (c : ConversationHandler)
    : Prop :=
  Forall P (entry_points c) /\
  (forall s hs, states c !! s = Some hs -> Forall P hs) /\
  Forall P (fallbacks c).

Definition registration_all (P : Handler -> Prop) (r : Registration) : Prop :=
  match r with
  | Plain h => P h
  | Conversation c => conversation_all P c
  end.

(** What an accepting handler sends: one or two messages; when the
    update is a button press, one acknowledgement, sent before anything
    else; when it is a message, no acknowledgement. *)
Definition one_response (u : Update) (l : list Action) : Prop :=
  (1 <= count_if is_message l <= 2)%nat /\
  (message u = None ->
   exists rest,
     l = answer_callback_query :: rest /\
     count_if is_acknowledgement rest = 0%nat) /\
  (callback_query u = None -> count_if is_acknowledgement l = 0%nat).

Definition responds (h : Handler) : Prop :=
  forall u w,
    check_update h u = true ->
    exists l, snd (callback h u w) = sent w l /\ one_response u l.

(** The events the registration of [main] provides for, given the
    stored state of the session. *)
Definition routed (state : option Z) (u : Update) : bool :=
  match message u, callback_query u with
  | Some m, _ =>
      truthy (text m) &&
      match bot_command m with
      | None => true
      | Some c =>
          String.eqb c "start" || String.eqb c "help" ||
          (String.eqb c "done" && bool_decide (state = Some ASK_AI_QUESTION))
      end
  | None, Some q =>
      anchored_match "show_products" (data q) ||
      (anchored_match "ask_ai" (data q) && bool_decide (state = None))
  | None, None => false
  end.

(** ** The router as a decision table *)

(** The seven coroutines an update can be handed to. *)
Inductive Route :=
| to_start
| to_help
| to_catalog
| to_entry
| to_question
| to_done
| to_unknown.

(** The update is the command [c], as [CommandHandler] tests it. *)
Definition is_command (c : string) (u : Update) : bool :=
  match message u with
  | Some m =>
      match bot_command m with
      | Some c' => truthy (text m) && String.eqb c' c
      | None => false
      end
  | None => false
  end.

(** The update is a text that is not a command. *)
Definition is_plain_text (u : Update) : bool :=
  match message u with
  | Some m => text_not_command m
  | None => false
  end.

(** The update is a press of the button whose data matches [p]. *)
Definition pressed (p : string) (u : Update) : bool :=
  match callback_query u with
  | Some q => anchored_match p (data q)
  | None => false
  end.

(** Where an update goes, given the stored state of its session: the
    order of registration in [main] read as nested tests. *)
Definition route (state : option Z) (u : Update) : option Route :=
  if is_command "start" u then Some to_start
  else if is_command "help" u then Some to_help
  else if pressed "show_products" u then Some to_catalog
  else
    match state with
    | None =>
        if pressed "ask_ai" u then Some to_entry
        else if is_plain_text u then Some to_unknown
        else None
    | Some s =>
        if Z.eqb s ASK_AI_QUESTION then
          if is_plain_text u then Some to_question
          else if is_command "done" u then Some to_done
          else None
        else
          if is_command "done" u then Some to_done
          else if is_plain_text u then Some to_unknown
          else None
    end.

(** The handler registered for each route. *)
Definition route_handler (model : option GenerativeModel) (r : Route)
    : Handler :=
  match r with
  | to_start => CommandHandler "start" (returning_none start_command)
  | to_help => CommandHandler "help" (returning_none help_command)
  | to_catalog =>
      CallbackQueryHandler (returning_none show_products_callback)
        "show_products"
  | to_entry =>
      CallbackQueryHandler (returning_state (ask_ai_entry_point model))
        "ask_ai"
  | to_question =>
      MessageHandler text_not_command
        (returning_state (handle_ai_question model))
  | to_done => CommandHandler "done" (returning_state done_ai_dialog)
  | to_unknown =>
      MessageHandler text_not_command (returning_none unknown_command)
  end.

(** The routes that belong to the conversation. *)
Definition in_conversation (r : Route) : bool :=
  match r with
  | to_entry | to_question | to_done => true
  | _ => false
  end.

Definition route_selected (model : option GenerativeModel) (r : Route)
    : Selected :=
  if in_conversation r then Inside (route_handler model r)
  else Outside (route_handler model r).

(** What each coroutine sends and returns on an update routed to it. *)
Definition route_reply (model : option GenerativeModel) (r : Route)
    (u : Update) (w : World) : option Z * list Action :=
  match r with
  | to_start =>
      (None,
       [reply_html
          ("Привет, " ++ mention_html (effective_user u)
           ++ "! Я бот-магазин. Выберите действие:")
          (Some main_keyboard)])
  | to_help => (None, [reply_text HELP_TEXT None])
  | to_catalog =>
      (None,
       [ answer_callback_query;
         match fst (get_products w) with
         | Return (p :: ps) =>
             edit_message_text (listing (p :: ps)) (Some "HTML")
         | _ => edit_message_text NO_PRODUCTS None
         end;
         reply_text NEXT_ACTION (Some main_keyboard) ])
  | to_entry =>
      match model with
      | None =>
          (Some END, [answer_callback_query; reply_text AI_UNAVAILABLE None])
      | Some _ =>
          (Some ASK_AI_QUESTION,
           [ answer_callback_query;
             reply_text AI_READY None;
             reply_text NEXT_ACTION (Some main_keyboard) ])
      end
  | to_question =>
      match model with
      | None => (Some END, [reply_text AI_UNAVAILABLE None])
      | Some g =>
          let question :=
            default "" (match message u with Some m => text m | None => None end)
          in
          (Some ASK_AI_QUESTION,
           [ send_action "typing";
             generate_content question;
             reply_text (answer_or_apology g w question) None ])
      end
  | to_done => (Some END, [reply_text AI_CLOSING (Some main_keyboard)])
  | to_unknown => (None, [reply_text UNKNOWN_INPUT (Some main_keyboard)])
  end.

(** One step of the bot, read off the decision table: nothing happens
    when no route is found; otherwise the reply of the route is sent, and
    a route of the conversation also updates the stored state. *)
Definition step (model : option GenerativeModel) (a : Application)
    (u : Update) : Application :=
  match route (conversations a !! key_of u) u with
  | None => a
  | Some r =>
      let reply := route_reply model r u (world a) in
      {| world := sent (world a) (snd reply);
         conversations :=
           if in_conversation r
           then update_state (fst reply) (key_of u) (conversations a)
           else conversations a |}
  end.

(** A question put by the session [k]: a text that is not a command. *)
Definition question_from (k : ConversationKey) (u : Update) : Prop :=
  key_of u = k /\ is_plain_text u = true /\ callback_query u = None.

(** The blocks of a listing, first product first. *)
Definition blocks (products : list Product) : string :=
  fold_right (fun p rest => product_block p ++ rest) "" products.

(** ** Sample inputs *)

Definition ann : User :=
  {| user_id := 7; full_name := "Ann"; mention_html := "Ann" |}.

Definition press (d : string) : Update :=
  {| effective_chat := 1; effective_user := ann;
     callback_query := Some {| data := d |}; message := None |}.

Definition say (t : string) : Update :=
  {| effective_chat := 1; effective_user := ann; callback_query := None;
     message := Some {| text := Some t; bot_command := None |} |}.

Definition command (c : string) : Update :=
  {| effective_chat := 1; effective_user := ann; callback_query := None;
     message := Some {| text := Some ("/" ++ c); bot_command := Some c |} |}.

(** A photo: a message that carries no text. *)
Definition photo : Update :=
  {| effective_chat := 1; effective_user := ann; callback_query := None;
     message := Some {| text := None; bot_command := None |} |}.

Definition empty_text : Update :=
  {| effective_chat := 1; effective_user := ann; callback_query := None;
     message := Some {| text := Some ""; bot_command := None |} |}.

Definition echo : GenerativeModel := fun _ prompt => Return ("re: " ++ prompt).

Definition failing : GenerativeModel := fun _ _ => Raise (ProviderError "503").

(** A stand-in for [int] that reads the one numeral the samples use. *)
Definition int_of_zero (s : string) : outcome Z :=
  if String.eqb s "0" then Return 0 else Raise (ProviderError "ValueError").

Definition bad_admin : Environ :=
  {| TELEGRAM_BOT_TOKEN := Some "123:abc"; GOOGLE_API_KEY := Some "key";
     ADMIN_TELEGRAM_ID := Some "admin" |}.

Definition empty_token : Environ :=
  {| TELEGRAM_BOT_TOKEN := Some ""; GOOGLE_API_KEY := Some "key";
     ADMIN_TELEGRAM_ID := None |}.

Definition with_key : Environ :=
  {| TELEGRAM_BOT_TOKEN := Some "123:abc"; GOOGLE_API_KEY := Some "key";
     ADMIN_TELEGRAM_ID := None |}.

Definition waiting : Application :=
  {| world := {| db := Unreachable; outbox := [] |};
     conversations := {[ key_of (say "hi") := ASK_AI_QUESTION ]} |}.

(** * Properties *)

(** ** Catalog store *)

Section CatalogStore.

Lemma db_sent w l : db (sent w l) = db w.
Proof. reflexivity. Qed.

Lemma sent_nil w : sent w [] = w.
Proof. destruct w as [d o]. unfold sent. simpl. by rewrite app_nil_r. Qed.

Lemma sent_sent w l1 l2 : sent (sent w l1) l2 = sent w (l1 ++ l2).
Proof. unfold sent. simpl. by rewrite app_assoc. Qed.

Lemma emit_sent a w : emit a w = (Return tt, sent w [a]).
Proof. reflexivity. Qed.

Lemma init_db_returns w : fst (init_db w) = Return tt.
Proof. destruct w as [[|[[[|r rs] s]|]|[[[|r rs] s]|]] o]; reflexivity. Qed.

Lemma init_db_outbox w : outbox (snd (init_db w)) = outbox w.
Proof. destruct w as [[|[[[|r rs] s]|]|[[[|r rs] s]|]] o]; reflexivity. Qed.

Lemma init_db_nonempty w t :
  db w = File (Some t) -> rows t <> [] -> init_db w = (Return tt, w).
Proof.
  destruct w as [d o]. simpl. intros -> Hrows.
  destruct t as [[|r rs] s]; [done | reflexivity].
Qed.

Lemma get_products_total w :
  get_products w =
    (Return match db w with
            | File (Some t) | ReadOnly (Some t) => map selected (rows t)
            | _ => []
            end, w).
Proof. destruct w as [[|[t|]|[t|]] o]; reflexivity. Qed.

End CatalogStore.

(** C5.  Seeding then listing: when the store holds no product, running
    [init_db] and then [get_products] succeeds and returns exactly the two
    sample products, laptop first and phone second, each with its name,
    description, price and image reference. *)
Theorem seeding_then_listing (w : World) :
  is_empty_store (db w) = true ->
  fst (init_db w) = Return tt /\
  fst (get_products (snd (init_db w))) = Return sample_products.
Proof.
  destruct w as [[|[[[|r rs] s]|]|[[[|r rs] s]|]] o]; simpl; intros Hempty;
    try discriminate; split; reflexivity.
Qed.

Lemma seeding_then_listing_witness :
  is_empty_store (File None) = true /\
  fst (get_products (snd (init_db {| db := File None; outbox := [] |})))
  = Return sample_products.
Proof.
  split; [reflexivity |].
  apply (seeding_then_listing {| db := File None; outbox := [] |}).
  reflexivity.
Defined.

(** C9.  Bootstrap is idempotent: a second [init_db] changes nothing that
    the first one left, and on a store that already holds a product
    [init_db] changes nothing at all. *)
Theorem init_db_idempotent (w : World) :
  init_db (snd (init_db w)) = (Return tt, snd (init_db w)) /\
  (forall t, db w = File (Some t) -> rows t <> [] ->
     init_db w = (Return tt, w)).
Proof.
  split.
  - destruct w as [[|[[[|r rs] s]|]|[[[|r rs] s]|]] o]; reflexivity.
  - apply init_db_nonempty.
Qed.

Lemma init_db_idempotent_witness :
  let seeded := snd (init_db {| db := File None; outbox := [] |}) in
  init_db seeded = (Return tt, seeded).
Proof.
  intros seeded.
  refine (proj2 (init_db_idempotent seeded) _ eq_refl _).
  discriminate.
Defined.

(** C7.  [get_products] never raises and leaves the world as it was; when
    the store cannot be read it returns the empty list; and whenever the
    list it returns is empty, for whichever reason, the catalog responder
    acknowledges the press, replaces the message by the no-products notice
    and sends the menu. *)
Theorem listing_failure_reads_as_empty (w : World) :
  (exists l, get_products w = (Return l, w)) /\
  (unreadable (db w) = true -> get_products w = (Return [], w)) /\
  (forall u q,
     callback_query u = Some q ->
     fst (get_products w) = Return [] ->
     show_products_callback u w =
       (Return tt,
        sent w [ answer_callback_query;
                 edit_message_text NO_PRODUCTS None;
                 reply_text NEXT_ACTION (Some main_keyboard) ])).
Proof.
  split; [| split].
  - rewrite get_products_total. eauto.
  - rewrite get_products_total. destruct (db w) as [|[t|]|[t|]]; done.
  - intros u q Hq Hnone. rewrite get_products_total in Hnone.
    simpl in Hnone. injection Hnone as Hnone.
    unfold show_products_callback. rewrite Hq.
    unfold bind at 1. rewrite emit_sent. cbv beta iota.
    unfold bind at 1. rewrite get_products_total. cbv beta iota.
    rewrite db_sent, Hnone.
    unfold bind. rewrite !emit_sent. cbv beta iota.
    rewrite ?emit_sent, !sent_sent. reflexivity.
Qed.

Lemma listing_failure_reads_as_empty_witness :
  let w := {| db := Unreachable; outbox := [] |} in
  let u := {| effective_chat := 1;
              effective_user :=
                {| user_id := 7; full_name := "Ann"; mention_html := "Ann" |};
              callback_query := Some {| data := "show_products" |};
              message := None |} in
  get_products w = (Return [], w) /\
  outbox (snd (show_products_callback u w)) =
    [ answer_callback_query;
      edit_message_text NO_PRODUCTS None;
      reply_text NEXT_ACTION (Some main_keyboard) ].
Proof.
  intros w u.
  destruct (listing_failure_reads_as_empty w) as (_ & Hread & Hshow).
  split.
  - apply Hread. reflexivity.
  - rewrite (Hshow u _ eq_refl); [reflexivity |].
    rewrite Hread; reflexivity.
Defined.

(** ** Dialog controller: the three coroutines *)

Section DialogHandlers.

Variable model : option GenerativeModel.

(** Evaluate a sequence of [emit]s. *)
Ltac run_emits :=
  unfold bind; rewrite ?emit_sent; cbv beta iota;
  rewrite ?emit_sent, ?sent_sent; simpl app.

Lemma ask_ai_entry_point_eq u w :
  ask_ai_entry_point model u w =
    match callback_query u, message u, model with
    | Some _, _, None =>
        (Return END,
         sent w [answer_callback_query; reply_text AI_UNAVAILABLE None])
    | Some _, _, Some _ =>
        (Return ASK_AI_QUESTION,
         sent w [ answer_callback_query;
                  reply_text AI_READY None;
                  reply_text NEXT_ACTION (Some main_keyboard) ])
    | None, Some _, None =>
        (Return END, sent w [reply_text AI_UNAVAILABLE None])
    | None, Some _, Some _ =>
        (Return ASK_AI_QUESTION, sent w [reply_text AI_READY None])
    | None, None, _ => (Return END, w)
    end.
Proof.
  unfold ask_ai_entry_point.
  destruct (callback_query u), (message u), model;
    try reflexivity; run_emits; try reflexivity;
    unfold ret; rewrite ?sent_sent; reflexivity.
Qed.

Lemma handle_ai_question_eq u w :
  handle_ai_question model u w =
    match message u with
    | None => (Raise AttributeError, w)
    | Some m =>
        if truthy (text m) then
          match model with
          | None => (Return END, sent w [reply_text AI_UNAVAILABLE None])
          | Some g =>
              let question := default "" (text m) in
              (Return ASK_AI_QUESTION,
               sent w [ send_action "typing";
                        generate_content question;
                        reply_text (answer_or_apology g w question) None ])
          end
        else (Return ASK_AI_QUESTION, sent w [reply_text AI_REPROMPT None])
    end.
Proof.
  unfold handle_ai_question, update_message.
  destruct (message u) as [m|]; [| reflexivity].
  unfold bind at 1. unfold ret at 1.
  destruct (truthy (text m)); cbv beta iota delta [negb].
  - destruct model as [g|].
    + unfold answer_or_apology, try_except, generate, bind.
      cbv beta iota delta [negb]. rewrite emit_sent. cbv beta iota.
      change (outbox (sent w [send_action "typing"]))
        with (outbox w ++ [send_action "typing"])%list.
      destruct (g _ _) as [a|e]; rewrite ?emit_sent; unfold sent, ret;
        simpl; rewrite <- ?app_assoc; reflexivity.
    + run_emits. reflexivity.
  - run_emits. reflexivity.
Qed.

Lemma done_ai_dialog_eq u w :
  done_ai_dialog u w =
    match message u with
    | None => (Raise AttributeError, w)
    | Some _ =>
        (Return END, sent w [reply_text AI_CLOSING (Some main_keyboard)])
    end.
Proof.
  unfold done_ai_dialog, update_message.
  destruct (message u); reflexivity.
Qed.

End DialogHandlers.

(** ** Routing of the events the dialog is built from *)

Section Routing.

Variable model : option GenerativeModel.

Lemma returning_state_eq (f : Update -> M Z) u w :
  returning_state f u w =
    match f u w with
    | (Return s, w') => (Return (Some s), w')
    | (Raise e, w') => (Raise e, w')
    end.
Proof. unfold returning_state, bind, ret. by destruct (f u w) as [[s|e] w']. Qed.

Ltac unfold_registration :=
  unfold process_update, handlers, select, conversation_check, conv_handler,
    entry_points, states, fallbacks;
  unfold CommandHandler, CallbackQueryHandler, MessageHandler.

(** A press of the "ask AI" button with no conversation open runs the
    entry point. *)
Lemma entry_dispatch a u q :
  callback_query u = Some q -> data q = "ask_ai" -> message u = None ->
  conversations a !! key_of u = None ->
  process_update (handlers model) a u =
    conversation_result a u (ask_ai_entry_point model u (world a)).
Proof.
  intros Hq Hd Hm Hidle. unfold_registration. rewrite Hidle.
  unfold first_accepting, check_update. rewrite Hq, Hm, Hd.
  change (anchored_match "show_products" "ask_ai") with false.
  change (anchored_match "ask_ai" "ask_ai") with true.
  cbv beta iota. unfold callback. rewrite returning_state_eq.
  by destruct (ask_ai_entry_point model u (world a)) as [[s|e] w'].
Qed.

(** A text that is not a command, sent while the conversation waits for
    a question, runs the question handler. *)
Lemma question_dispatch a u m :
  message u = Some m -> callback_query u = None ->
  truthy (text m) = true -> bot_command m = None ->
  conversations a !! key_of u = Some ASK_AI_QUESTION ->
  process_update (handlers model) a u =
    conversation_result a u (handle_ai_question model u (world a)).
Proof.
  intros Hm Hq Htext Hcmd Hstate. unfold_registration. rewrite Hstate.
  rewrite lookup_singleton_eq. simpl (default _ _).
  unfold first_accepting, check_update, text_not_command,
    filters.TEXT, filters.COMMAND.
  rewrite Hq, Hm, Hcmd, Htext.
  cbv beta iota delta [andb negb]. unfold callback.
  rewrite returning_state_eq.
  by destruct (handle_ai_question model u (world a)) as [[s|e] w'].
Qed.

(** The done command, sent while the conversation waits for a question,
    runs the closing handler. *)
Lemma done_dispatch a u m :
  message u = Some m -> callback_query u = None ->
  truthy (text m) = true -> bot_command m = Some "done" ->
  conversations a !! key_of u = Some ASK_AI_QUESTION ->
  process_update (handlers model) a u =
    conversation_result a u (done_ai_dialog u (world a)).
Proof.
  intros Hm Hq Htext Hcmd Hstate. unfold_registration. rewrite Hstate.
  rewrite lookup_singleton_eq. simpl (default _ _).
  unfold first_accepting, check_update, text_not_command,
    filters.TEXT, filters.COMMAND.
  rewrite Hq, Hm, Hcmd, Htext.
  change (String.eqb "done" "start") with false.
  change (String.eqb "done" "help") with false.
  change (String.eqb "done" "done") with true.
  cbv beta iota delta [andb negb]. unfold callback.
  rewrite returning_state_eq.
  by destruct (done_ai_dialog u (world a)) as [[s|e] w'].
Qed.

(** The done command with no conversation open is accepted by no
    handler. *)
Lemma done_outside_dispatch a u m :
  message u = Some m -> callback_query u = None ->
  bot_command m = Some "done" ->
  conversations a !! key_of u = None ->
  process_update (handlers model) a u = a.
Proof.
  intros Hm Hq Hcmd Hidle. unfold_registration. rewrite Hidle.
  unfold first_accepting, check_update, text_not_command,
    filters.TEXT, filters.COMMAND.
  rewrite Hq, Hm, Hcmd.
  change (String.eqb "done" "start") with false.
  change (String.eqb "done" "help") with false.
  rewrite !andb_false_r. reflexivity.
Qed.

(** A message without text, sent while the conversation waits for a
    question, is accepted by no handler: [filters.TEXT] keeps it away from
    the question handler and from the catch-all alike. *)
Lemma textless_message_dispatch a u m :
  message u = Some m -> callback_query u = None ->
  truthy (text m) = false -> bot_command m = None ->
  conversations a !! key_of u = Some ASK_AI_QUESTION ->
  process_update (handlers model) a u = a.
Proof.
  intros Hm Hq Htext Hcmd Hstate. unfold_registration. rewrite Hstate.
  rewrite lookup_singleton_eq. simpl (default _ _).
  unfold first_accepting, check_update, text_not_command,
    filters.TEXT, filters.COMMAND.
  rewrite Hq, Hm, Hcmd, Htext. reflexivity.
Qed.

End Routing.

(** ** The scenarios of the specification, run on the model *)

Example scenario_browse_catalog :
  outbox (world (run (handlers None) (main (File None))
                   [command "start"; press "show_products"])) =
  [ reply_html "Привет, Ann! Я бот-магазин. Выберите действие:"
      (Some main_keyboard);
    answer_callback_query;
    edit_message_text
      (LISTING_HEADER
       ++ "<b>Ноутбук ProX</b>" ++ nl
       ++ "Описание: Мощный ноутбук для работы и игр." ++ nl
       ++ "Цена: $1200.00" ++ nl
       ++ "Изображение: https://upload.wikimedia.org/wikipedia/commons/thumb/b/b3/Laptop_computer_on_table.jpg/640px-Laptop_computer_on_table.jpg" ++ nl
       ++ nl
       ++ "<b>Смартфон Ultra</b>" ++ nl
       ++ "Описание: Флагманский смартфон с лучшей камерой." ++ nl
       ++ "Цена: $800.00" ++ nl
       ++ "Изображение: https://upload.wikimedia.org/wikipedia/commons/thumb/c/c2/IPhone_14_Pro_Max_mockup.png/640px-IPhone_14_Pro_Max_mockup.png" ++ nl
       ++ nl)
      (Some "HTML");
    reply_text NEXT_ACTION (Some main_keyboard) ].
Proof. reflexivity. Qed.

Example scenario_ask_then_done :
  let a := run (handlers (Some echo)) (main (File None))
             [ press "ask_ai"; say "What is the return policy?";
               command "done" ] in
  outbox (world a) =
    [ answer_callback_query;
      reply_text AI_READY None;
      reply_text NEXT_ACTION (Some main_keyboard);
      send_action "typing";
      generate_content "What is the return policy?";
      reply_text "re: What is the return policy?" None;
      reply_text AI_CLOSING (Some main_keyboard) ] /\
  conversations a !! key_of (command "done") = None.
Proof. split; reflexivity. Qed.

Example scenario_free_text_first :
  outbox (world (run (handlers None) (main (File None)) [say "hello"])) =
  [ reply_text UNKNOWN_INPUT (Some main_keyboard) ].
Proof. reflexivity. Qed.

(** ** Dialog controller: claims about single events *)

Lemma count_if_app p l1 l2 :
  count_if p (l1 ++ l2) = (count_if p l1 + count_if p l2)%nat.
Proof. unfold count_if. by rewrite List.filter_app, length_app. Qed.

Lemma update_state_same (k : ConversationKey) (s : Z)
    (convs : gmap ConversationKey Z) :
  s <> END -> convs !! k = Some s -> update_state (Some s) k convs = convs.
Proof.
  intros Hs Hk. unfold update_state.
  destruct (Z.eqb_spec s END) as [|_]; [done |]. by apply insert_id.
Qed.

Lemma update_state_end (k : ConversationKey)
    (convs : gmap ConversationKey Z) :
  update_state (Some END) k convs = delete k convs.
Proof.
  unfold update_state. change (Z.eqb END END) with true. cbv iota.
  destruct (convs !! k) eqn:Hk; [done |].
  symmetry. by apply delete_id.
Qed.

(** C2.  With no model configured, the entry point invoked on a button
    press or on a message returns [END] after sending the unavailability
    notice (preceded by the acknowledgement of the press); dispatched from
    a press of the "ask AI" button with no conversation open, it leaves
    every conversation state as it was, so the session stays idle, and no
    request to the provider is recorded. *)
Theorem unconfigured_entry_stays_idle (a : Application) (u : Update) :
  (callback_query u <> None \/ message u <> None ->
   ask_ai_entry_point None u (world a) =
     (Return END,
      sent (world a)
        (match callback_query u with
         | Some _ => [answer_callback_query]
         | None => []
         end ++ [reply_text AI_UNAVAILABLE None]))) /\
  (forall q,
     callback_query u = Some q -> data q = "ask_ai" -> message u = None ->
     conversations a !! key_of u = None ->
     let a' := process_update (handlers None) a u in
     a' = {| world :=
               sent (world a)
                 [answer_callback_query; reply_text AI_UNAVAILABLE None];
             conversations := conversations a |} /\
     conversations a' !! key_of u = None /\
     count_if is_ai_call (outbox (world a')) =
       count_if is_ai_call (outbox (world a))).
Proof.
  split.
  - intros Hctx. rewrite ask_ai_entry_point_eq.
    destruct (callback_query u), (message u); try reflexivity.
    destruct Hctx; done.
  - intros q Hq Hd Hm Hidle a'.
    assert (Ha' : a' = {| world :=
                            sent (world a)
                              [answer_callback_query;
                               reply_text AI_UNAVAILABLE None];
                          conversations := conversations a |}).
    { subst a'. rewrite (entry_dispatch None a u q Hq Hd Hm Hidle).
      rewrite ask_ai_entry_point_eq, Hq. unfold conversation_result.
      rewrite update_state_end. f_equal. by apply delete_id. }
    rewrite Ha'. split; [reflexivity |]. split; [exact Hidle |].
    simpl. rewrite count_if_app. unfold count_if. simpl. lia.
Qed.

Lemma unconfigured_entry_stays_idle_witness :
  let a := main (File None) in
  ask_ai_entry_point None (say "ai") (world a) =
    (Return END, sent (world a) [reply_text AI_UNAVAILABLE None]) /\
  process_update (handlers None) a (press "ask_ai") =
    {| world :=
         sent (world a) [answer_callback_query; reply_text AI_UNAVAILABLE None];
       conversations := conversations a |}.
Proof.
  intros a. split.
  - apply (proj1 (unconfigured_entry_stays_idle a (say "ai"))).
    right. discriminate.
  - refine (proj1 (proj2 (unconfigured_entry_stays_idle a (press "ask_ai"))
                     {| data := "ask_ai" |} eq_refl eq_refl eq_refl _)).
    reflexivity.
Defined.

(** C3.  With a model configured, a message with a non-empty text makes
    the question handler show the typing indicator, send the text to the
    provider once, and reply with the provider's answer when it succeeds
    and with the apology when it fails; either way it returns
    [ASK_AI_QUESTION], and dispatched while the conversation waits for a
    question it leaves the conversation states as they were. *)
Theorem question_is_answered_or_apologised
    (g : GenerativeModel) (a : Application) (u : Update) (m : Message)
    (question : string) :
  message u = Some m -> text m = Some question -> question <> "" ->
  let w := world a in
  let provider := g (outbox w ++ [send_action "typing"])%list question in
  let reply :=
    match provider with
    | Return ai_response => ai_response
    | Raise _ => AI_APOLOGY
    end in
  handle_ai_question (Some g) u w =
    (Return ASK_AI_QUESTION,
     sent w [ send_action "typing"; generate_content question;
              reply_text reply None ]) /\
  (callback_query u = None -> bot_command m = None ->
   conversations a !! key_of u = Some ASK_AI_QUESTION ->
   process_update (handlers (Some g)) a u =
     {| world :=
          sent w [ send_action "typing"; generate_content question;
                   reply_text reply None ];
        conversations := conversations a |}).
Proof.
  intros Hm Htext Hne w provider reply.
  assert (Htruthy : truthy (text m) = true).
  { rewrite Htext. by destruct question. }
  assert (Hrun : handle_ai_question (Some g) u w =
            (Return ASK_AI_QUESTION,
             sent w [ send_action "typing"; generate_content question;
                      reply_text reply None ])).
  { rewrite handle_ai_question_eq, Hm, Htruthy, Htext. reflexivity. }
  split; [exact Hrun |].
  intros Hq Hcmd Hstate.
  rewrite (question_dispatch (Some g) a u m Hm Hq Htruthy Hcmd Hstate).
  fold w. rewrite Hrun. unfold conversation_result.
  by rewrite update_state_same.
Qed.

Lemma question_is_answered_or_apologised_witness :
  handle_ai_question (Some echo) (say "hi") (world waiting) =
    (Return ASK_AI_QUESTION,
     sent (world waiting) [ send_action "typing"; generate_content "hi";
                            reply_text "re: hi" None ]) /\
  process_update (handlers (Some failing)) waiting (say "hi") =
    {| world :=
         sent (world waiting) [ send_action "typing"; generate_content "hi";
                                reply_text AI_APOLOGY None ];
       conversations := conversations waiting |}.
Proof.
  split.
  - refine (proj1 (question_is_answered_or_apologised echo waiting (say "hi")
                     {| text := Some "hi"; bot_command := None |} "hi"
                     eq_refl eq_refl _)).
    discriminate.
  - refine (proj2 (question_is_answered_or_apologised failing waiting
                     (say "hi") {| text := Some "hi"; bot_command := None |}
                     "hi" eq_refl eq_refl _) eq_refl eq_refl _).
    + discriminate.
    + apply lookup_singleton_eq.
Defined.

(** Called directly on a message whose text is missing or empty, the
    question handler replies with the re-prompt and nothing else, whether
    or not a model is configured: no request to the provider is recorded
    and it returns [ASK_AI_QUESTION]. *)
Lemma empty_question_reprompts
    (model : option GenerativeModel) (a : Application) (u : Update)
    (m : Message) :
  message u = Some m -> truthy (text m) = false ->
  let r := handle_ai_question model u (world a) in
  r = (Return ASK_AI_QUESTION, sent (world a) [reply_text AI_REPROMPT None]) /\
  count_if is_ai_call (outbox (snd r)) =
    count_if is_ai_call (outbox (world a)) /\
  (conversations a !! key_of u = Some ASK_AI_QUESTION ->
   update_state (Some ASK_AI_QUESTION) (key_of u) (conversations a)
   = conversations a).
Proof.
  intros Hm Htext r.
  assert (Hr : r = (Return ASK_AI_QUESTION,
                    sent (world a) [reply_text AI_REPROMPT None])).
  { subst r. by rewrite handle_ai_question_eq, Hm, Htext. }
  rewrite Hr. split; [reflexivity |]. split.
  - simpl. rewrite count_if_app. unfold count_if. simpl. lia.
  - intros Hstate. by apply update_state_same.
Qed.

Lemma empty_question_reprompts_witness :
  handle_ai_question (Some echo) empty_text (world waiting)
  = (Return ASK_AI_QUESTION,
     sent (world waiting) [reply_text AI_REPROMPT None]) /\
  update_state (Some ASK_AI_QUESTION) (key_of empty_text)
    (conversations waiting) = conversations waiting.
Proof.
  pose proof (empty_question_reprompts (Some echo) waiting empty_text
                {| text := Some ""; bot_command := None |} eq_refl eq_refl)
    as (Hrun & _ & Hstate).
  split; [exact Hrun |].
  apply Hstate, lookup_singleton_eq.
Defined.

(** C8.  The claim fails on the program.  A photo sent by a session that
    waits for a question is accepted by no handler: nothing is sent, so
    no re-prompt, and nothing changes.  The question handler does hold the
    re-prompt (called directly on the same update it sends it and returns
    [ASK_AI_QUESTION]), but it is registered behind [filters.TEXT], which
    lets no such message through. *)
Lemma reprompt_never_reaches_a_waiting_session :
  let a' := process_update (handlers (Some echo)) waiting photo in
  conversations waiting !! key_of photo = Some ASK_AI_QUESTION /\
  select (handlers (Some echo)) (conversations waiting) photo = None /\
  a' = waiting /\
  outbox (world a') = [] /\
  handle_ai_question (Some echo) photo (world waiting) =
    (Return ASK_AI_QUESTION,
     sent (world waiting) [reply_text AI_REPROMPT None]).
Proof. repeat split. Qed.

(** C10.  The question handler checks the model again: with no model
    configured, a message with a non-empty text gets the unavailability
    notice and the handler returns [END]; dispatched while the
    conversation waits for a question, this removes the conversation
    state, so the session is idle again. *)
Theorem question_guard_ends_dialog (a : Application) (u : Update) (m : Message) :
  message u = Some m -> truthy (text m) = true ->
  handle_ai_question None u (world a) =
    (Return END, sent (world a) [reply_text AI_UNAVAILABLE None]) /\
  (callback_query u = None -> bot_command m = None ->
   conversations a !! key_of u = Some ASK_AI_QUESTION ->
   let a' := process_update (handlers None) a u in
   a' = {| world := sent (world a) [reply_text AI_UNAVAILABLE None];
           conversations := delete (key_of u) (conversations a) |} /\
   conversations a' !! key_of u = None).
Proof.
  intros Hm Htext.
  assert (Hrun : handle_ai_question None u (world a) =
            (Return END, sent (world a) [reply_text AI_UNAVAILABLE None])).
  { by rewrite handle_ai_question_eq, Hm, Htext. }
  split; [exact Hrun |].
  intros Hq Hcmd Hstate a'. subst a'.
  rewrite (question_dispatch None a u m Hm Hq Htext Hcmd Hstate), Hrun.
  unfold conversation_result. rewrite update_state_end.
  split; [reflexivity |]. simpl. apply lookup_delete_eq.
Qed.

Lemma question_guard_ends_dialog_witness :
  handle_ai_question None (say "hi") (world waiting) =
    (Return END, sent (world waiting) [reply_text AI_UNAVAILABLE None]) /\
  conversations (process_update (handlers None) waiting (say "hi"))
    !! key_of (say "hi") = None.
Proof.
  pose proof (question_guard_ends_dialog waiting (say "hi")
                {| text := Some "hi"; bot_command := None |} eq_refl eq_refl)
    as (Hrun & Hdispatch).
  split; [exact Hrun |].
  apply (Hdispatch eq_refl eq_refl), lookup_singleton_eq.
Defined.

(** ** Properties shared by all registered handlers *)

Section Registered.

Variable P : Handler -> Prop.

Lemma first_accepting_all hs u h :
  Forall P hs -> first_accepting hs u = Some h -> P h.
Proof.
  induction 1 as [|h0 hs Hh0 _ IH]; simpl; [done |].
  destruct (check_update h0 u); [| exact IH].
  by intros [= <-].
Qed.

Lemma conversation_check_all c convs u h :
  conversation_all P c -> conversation_check c convs u = Some h -> P h.
Proof.
  intros (Hentry & Hstates & Hfall). unfold conversation_check.
  destruct (convs !! key_of u) as [state|].
  - destruct (states c !! state) as [hs|] eqn:Hs; simpl.
    + destruct (first_accepting hs u) as [h'|] eqn:Hfirst.
      * intros [= <-].
        eapply first_accepting_all; [by eapply Hstates | exact Hfirst].
      * by apply first_accepting_all.
    + by apply first_accepting_all.
  - by apply first_accepting_all.
Qed.

Lemma select_all rs convs u s :
  Forall (registration_all P) rs ->
  select rs convs u = Some s -> P (selected_handler s).
Proof.
  induction 1 as [|r rs Hr _ IH]; simpl; [done |].
  destruct r as [h0|c].
  - destruct (check_update h0 u); [| exact IH]. by intros [= <-].
  - destruct (conversation_check c convs u) as [h'|] eqn:Hcheck; [| exact IH].
    intros [= <-]. by eapply conversation_check_all.
Qed.

End Registered.

Lemma first_accepting_accepts hs u h :
  first_accepting hs u = Some h -> check_update h u = true.
Proof.
  induction hs as [|h0 hs IH]; simpl; [done |].
  destruct (check_update h0 u) eqn:Hcheck; [| exact IH].
  by intros [= <-].
Qed.

Lemma conversation_check_accepts c convs u h :
  conversation_check c convs u = Some h -> check_update h u = true.
Proof.
  unfold conversation_check. destruct (convs !! key_of u) as [state|].
  - destruct (first_accepting _ u) as [h'|] eqn:Hfirst.
    + intros [= <-]. by eapply first_accepting_accepts.
    + apply first_accepting_accepts.
  - apply first_accepting_accepts.
Qed.

Lemma select_accepts rs convs u s :
  select rs convs u = Some s -> check_update (selected_handler s) u = true.
Proof.
  induction rs as [|[h0|c] rs IH]; simpl; [done | |].
  - destruct (check_update h0 u) eqn:Hcheck; [| exact IH]. by intros [= <-].
  - destruct (conversation_check c convs u) as [h'|] eqn:Hcheck; [| exact IH].
    intros [= <-]. by eapply conversation_check_accepts.
Qed.

(** ** The set of conversation states *)

Section StateInvariant.

Lemma update_state_declared ns k convs :
  states_declared convs ->
  match ns with Some s => dialog_value s | None => True end ->
  states_declared (update_state ns k convs).
Proof.
  intros Hconvs Hns. destruct ns as [s|]; [| exact Hconvs].
  unfold update_state. destruct (Z.eqb_spec s END) as [-> | Hne].
  - destruct (convs !! k) eqn:Hk; [| exact Hconvs].
    intros k' s' Hk'. apply lookup_delete_Some in Hk' as [_ Hk'].
    by eapply Hconvs.
  - destruct Hns as [-> | ->]; [| done].
    intros k' s' Hk'. apply lookup_insert_Some in Hk' as [[_ <-]|[_ Hk']];
      [done | by eapply Hconvs].
Qed.

Lemma process_update_declared rs a u :
  Forall (registration_all asks_dialog_value) rs ->
  states_declared (conversations a) ->
  states_declared (conversations (process_update rs a u)).
Proof.
  intros Hrs Ha. unfold process_update.
  destruct (select rs (conversations a) u) as [[h|h]|] eqn:Hsel;
    [exact Ha | | exact Ha].
  pose proof (select_all _ _ _ _ _ Hrs Hsel u (world a)) as Hh.
  simpl in Hh.
  destruct (callback h u (world a)) as [[ns|e] w]; simpl in *; [| exact Ha].
  by apply update_state_declared.
Qed.

Lemma run_declared rs us a :
  Forall (registration_all asks_dialog_value) rs ->
  states_declared (conversations a) ->
  states_declared (conversations (run rs a us)).
Proof.
  intros Hrs. revert a. unfold run.
  induction us as [|u us IH]; intros a Ha; simpl; [exact Ha |].
  apply IH. by apply process_update_declared.
Qed.

Variable model : option GenerativeModel.

Lemma entry_point_value u w :
  fst (ask_ai_entry_point model u w) = Return ASK_AI_QUESTION \/
  fst (ask_ai_entry_point model u w) = Return END.
Proof.
  rewrite ask_ai_entry_point_eq.
  destruct (callback_query u), (message u), model; simpl; auto.
Qed.

Lemma question_value u w :
  match message u with
  | Some _ =>
      fst (handle_ai_question model u w) = Return ASK_AI_QUESTION \/
      fst (handle_ai_question model u w) = Return END
  | None => fst (handle_ai_question model u w) = Raise AttributeError
  end.
Proof.
  rewrite handle_ai_question_eq.
  destruct (message u) as [m|]; [| reflexivity].
  destruct (truthy (text m)), model; simpl; auto.
Qed.

Lemma done_value u w :
  match message u with
  | Some _ => fst (done_ai_dialog u w) = Return END
  | None => fst (done_ai_dialog u w) = Raise AttributeError
  end.
Proof. rewrite done_ai_dialog_eq. by destruct (message u). Qed.

Lemma returning_state_asks (f : Update -> M Z) check :
  (forall u w, match fst (f u w) with
               | Return s => dialog_value s
               | Raise _ => True
               end) ->
  asks_dialog_value {| check_update := check;
                       callback := returning_state f |}.
Proof.
  intros Hf u w. simpl. rewrite returning_state_eq.
  specialize (Hf u w). by destruct (f u w) as [[s|e] w'].
Qed.

Lemma returning_none_asks (f : Update -> M unit) check :
  asks_dialog_value {| check_update := check;
                       callback := returning_none f |}.
Proof.
  intros u w. simpl. unfold returning_none, bind, ret.
  by destruct (f u w) as [[[]|e] w'].
Qed.

Lemma entry_point_asks u w :
  match fst (ask_ai_entry_point model u w) with
  | Return s => dialog_value s
  | Raise _ => True
  end.
Proof.
  destruct (entry_point_value u w) as [-> | ->]; [by left | by right].
Qed.

Lemma question_asks u w :
  match fst (handle_ai_question model u w) with
  | Return s => dialog_value s
  | Raise _ => True
  end.
Proof.
  pose proof (question_value u w) as H.
  destruct (message u); [| by rewrite H].
  destruct H as [-> | ->]; [by left | by right].
Qed.

Lemma done_asks u w :
  match fst (done_ai_dialog u w) with
  | Return s => dialog_value s
  | Raise _ => True
  end.
Proof.
  pose proof (done_value u w) as H.
  destruct (message u); rewrite H; [by right | done].
Qed.

Lemma handlers_ask_dialog_values :
  Forall (registration_all asks_dialog_value) (handlers model).
Proof.
  unfold handlers.
  do 3 (constructor; [apply returning_none_asks |]).
  constructor; [| constructor; [apply returning_none_asks | constructor]].
  split; [| split].
  - repeat constructor. apply returning_state_asks, entry_point_asks.
  - intros s hs Hs. simpl in Hs.
    apply lookup_singleton_Some in Hs as [_ <-].
    repeat constructor; apply returning_state_asks;
      [apply question_asks | apply done_asks].
  - repeat constructor. apply returning_state_asks, done_asks.
Qed.

Lemma main_declared d : states_declared (conversations (main d)).
Proof. intros k s Hk. simpl in Hk. by rewrite lookup_empty in Hk. Qed.

End StateInvariant.

(** C1.  The dialog has two states.  The entry point returns
    [ASK_AI_QUESTION] or [END]; so does the question handler on any update
    that carries a message, and the closing handler returns [END] on any
    such update (without a message either of them raises and the state is
    kept).  Hence after any sequence of updates processed from start-up,
    every session either has no stored state (idle) or the stored state
    [ASK_AI_QUESTION]. *)
Theorem dialog_has_two_states (model : option GenerativeModel) :
  (forall u w,
     fst (ask_ai_entry_point model u w) = Return ASK_AI_QUESTION \/
     fst (ask_ai_entry_point model u w) = Return END) /\
  (forall u w,
     match message u with
     | Some _ =>
         fst (handle_ai_question model u w) = Return ASK_AI_QUESTION \/
         fst (handle_ai_question model u w) = Return END
     | None => fst (handle_ai_question model u w) = Raise AttributeError
     end) /\
  (forall u w,
     match message u with
     | Some _ => fst (done_ai_dialog u w) = Return END
     | None => fst (done_ai_dialog u w) = Raise AttributeError
     end) /\
  (forall d us k,
     conversations (run (handlers model) (main d) us) !! k = None \/
     conversations (run (handlers model) (main d) us) !! k
     = Some ASK_AI_QUESTION).
Proof.
  split; [apply entry_point_value |].
  split; [apply question_value |].
  split; [apply done_value |].
  intros d us k.
  pose proof (run_declared (handlers model) us (main d)
                (handlers_ask_dialog_values model) (main_declared d)) as Hrun.
  destruct (conversations (run (handlers model) (main d) us) !! k) as [s|] eqn:Hk;
    [right | by left].
  f_equal. by eapply Hrun.
Qed.

(** ** Termination of the dialog from outside a conversation *)

(** C4, as stated, fails: at start-up no conversation is open, and the
    done command then reaches no handler at all, so the user gets no
    closing reply. *)
Lemma done_while_idle_gets_no_reply :
  let a := main (File None) in
  let a' := process_update (handlers None) a (command "done") in
  conversations a !! key_of (command "done") = None /\
  a' = a /\
  outbox (world a') = [].
Proof. repeat split. Qed.

(** C4, amended.  The done command sent while the session is idle leaves
    everything as it was: the state stays idle and nothing is sent.  The
    closing handler itself, on any update carrying a message, sends the
    closing reply with the menu and returns [END]; dispatched while the
    conversation waits for a question, it removes the stored state. *)
Theorem done_outside_conversation_is_ignored
    (model : option GenerativeModel) (a : Application) (u : Update)
    (m : Message) :
  message u = Some m -> callback_query u = None ->
  bot_command m = Some "done" ->
  (conversations a !! key_of u = None ->
   process_update (handlers model) a u = a) /\
  (forall w,
     done_ai_dialog u w =
       (Return END, sent w [reply_text AI_CLOSING (Some main_keyboard)])) /\
  (truthy (text m) = true ->
   conversations a !! key_of u = Some ASK_AI_QUESTION ->
   let a' := process_update (handlers model) a u in
   a' = {| world :=
             sent (world a) [reply_text AI_CLOSING (Some main_keyboard)];
           conversations := delete (key_of u) (conversations a) |} /\
   conversations a' !! key_of u = None).
Proof.
  intros Hm Hq Hcmd.
  assert (Hrun : forall w,
            done_ai_dialog u w =
              (Return END,
               sent w [reply_text AI_CLOSING (Some main_keyboard)])).
  { intros w. by rewrite done_ai_dialog_eq, Hm. }
  split; [by apply done_outside_dispatch with m |].
  split; [exact Hrun |].
  intros Htext Hstate a'. subst a'.
  rewrite (done_dispatch model a u m Hm Hq Htext Hcmd Hstate), Hrun.
  unfold conversation_result. rewrite update_state_end.
  split; [reflexivity |]. simpl. apply lookup_delete_eq.
Qed.

Lemma done_outside_conversation_is_ignored_witness :
  let idle := main (File None) in
  let waiting :=
    {| world := world idle;
       conversations := {[ key_of (command "done") := ASK_AI_QUESTION ]} |} in
  process_update (handlers None) idle (command "done") = idle /\
  conversations (process_update (handlers None) waiting (command "done"))
    !! key_of (command "done") = None.
Proof.
  intros idle waiting.
  pose proof (fun a =>
    done_outside_conversation_is_ignored None a (command "done")
      {| text := Some "/done"; bot_command := Some "done" |}
      eq_refl eq_refl eq_refl) as H.
  split.
  - apply (proj1 (H idle)). reflexivity.
  - refine (proj2 (proj2 (proj2 (H waiting)) eq_refl _)).
    apply lookup_singleton_eq.
Defined.

(** ** One handler, one response *)

Section Responses.

Lemma process_update_world rs a u s :
  select rs (conversations a) u = Some s ->
  world (process_update rs a u) =
    snd (callback (selected_handler s) u (world a)).
Proof.
  intros Hsel. unfold process_update. rewrite Hsel.
  destruct s as [h|h]; simpl; [done |].
  by destruct (callback h u (world a)) as [[ns|e] w].
Qed.

Ltac count_response :=
  split; [unfold count_if; simpl; try lia
         | split; intros;
           first [congruence | reflexivity
                 | eexists; split; reflexivity]].

Lemma command_responds c (f : Update -> M unit) (reply : Update -> Action) :
  (forall u, is_message (reply u) = true) ->
  (forall u, is_acknowledgement (reply u) = false) ->
  (forall u w, message u <> None -> f u w = (Return tt, sent w [reply u])) ->
  responds (CommandHandler c (returning_none f)).
Proof.
  intros Hmsg Hack Hf u w Hcheck. simpl in Hcheck.
  destruct (message u) as [m|] eqn:Hm; [| done].
  exists [reply u]. unfold callback, CommandHandler, returning_none, bind.
  rewrite Hf by (by rewrite Hm). split; [reflexivity |].
  unfold one_response, count_if. simpl. rewrite Hmsg, Hack. simpl.
  split; [lia | split; intros; [congruence | reflexivity]].
Qed.

Lemma start_command_eq u w :
  message u <> None ->
  start_command u w =
    (Return tt,
     sent w [reply_html
               ("Привет, " ++ mention_html (effective_user u)
                ++ "! Я бот-магазин. Выберите действие:")
               (Some main_keyboard)]).
Proof.
  intros Hm. unfold start_command, update_message.
  by destruct (message u).
Qed.

Lemma help_command_eq u w :
  message u <> None ->
  help_command u w = (Return tt, sent w [reply_text HELP_TEXT None]).
Proof.
  intros Hm. unfold help_command, update_message.
  by destruct (message u).
Qed.

Lemma unknown_command_eq u w :
  message u <> None ->
  unknown_command u w =
    (Return tt, sent w [reply_text UNKNOWN_INPUT (Some main_keyboard)]).
Proof.
  intros Hm. unfold unknown_command, update_message.
  by destruct (message u).
Qed.

Lemma show_products_callback_eq u w :
  callback_query u <> None ->
  show_products_callback u w =
    (Return tt,
     sent w [ answer_callback_query;
              match fst (get_products w) with
              | Return (p :: ps) =>
                  edit_message_text (listing (p :: ps)) (Some "HTML")
              | _ => edit_message_text NO_PRODUCTS None
              end;
              reply_text NEXT_ACTION (Some main_keyboard) ]).
Proof.
  intros Hq. unfold show_products_callback.
  destruct (callback_query u) as [q|]; [| done].
  unfold bind at 1. rewrite emit_sent. cbv beta iota.
  unfold bind at 1. rewrite !get_products_total. cbv beta iota.
  rewrite db_sent. simpl fst.
  destruct (match db w with
            | File (Some t) | ReadOnly (Some t) => map selected (rows t)
            | _ => []
            end) as [|p ps];
    unfold bind; rewrite !emit_sent; cbv beta iota;
    rewrite ?emit_sent, !sent_sent; reflexivity.
Qed.

Variable model : option GenerativeModel.

Lemma handlers_respond : Forall (registration_all responds) (handlers model).
Proof.
  unfold handlers.
  constructor.
  { eapply (command_responds _ _ (fun u => reply_html _ _));
      [done | done | exact start_command_eq]. }
  constructor.
  { eapply (command_responds _ _ (fun u => reply_text _ _));
      [done | done | exact help_command_eq]. }
  constructor.
  { intros u w Hcheck. simpl in Hcheck.
    destruct (callback_query u) as [q|] eqn:Hq; [| done].
    unfold callback, CallbackQueryHandler, returning_none, bind.
    rewrite show_products_callback_eq by (by rewrite Hq).
    destruct (fst (get_products w)) as [[|p ps]|e];
      eexists; (split; [reflexivity |]); count_response. }
  constructor.
  { split; [| split].
    - constructor; [| constructor]. intros u w Hcheck. simpl in Hcheck.
      destruct (callback_query u) as [q|] eqn:Hq; [| done].
      unfold callback, CallbackQueryHandler.
      rewrite returning_state_eq, ask_ai_entry_point_eq, Hq.
      destruct model; simpl; eexists; (split; [reflexivity |]);
        count_response.
    - intros s hs Hs. simpl in Hs.
      apply lookup_singleton_Some in Hs as [_ <-].
      constructor; [| constructor; [| constructor]].
      + intros u w Hcheck. simpl in Hcheck.
        destruct (message u) as [m|] eqn:Hm; [| done].
        apply andb_prop in Hcheck as [Htext _].
        unfold filters.TEXT in Htext.
        unfold callback, MessageHandler.
        rewrite returning_state_eq, handle_ai_question_eq, Hm, Htext.
        destruct model; simpl; eexists; (split; [reflexivity |]);
          count_response.
      + intros u w Hcheck. simpl in Hcheck.
        destruct (message u) as [m|] eqn:Hm; [| done].
        unfold callback, CommandHandler.
        rewrite returning_state_eq, done_ai_dialog_eq, Hm.
        simpl; eexists; (split; [reflexivity |]); count_response.
    - constructor; [| constructor].
      intros u w Hcheck. simpl in Hcheck.
      destruct (message u) as [m|] eqn:Hm; [| done].
      unfold callback, CommandHandler.
      rewrite returning_state_eq, done_ai_dialog_eq, Hm.
      simpl; eexists; (split; [reflexivity |]); count_response. }
  constructor; [| constructor].
  intros u w Hcheck. simpl in Hcheck.
  destruct (message u) as [m|] eqn:Hm; [| done].
  unfold callback, MessageHandler, returning_none, bind.
  rewrite unknown_command_eq by (by rewrite Hm).
  eexists; split; [reflexivity |]. count_response.
Qed.

End Responses.

Lemma routed_selected model convs u :
  routed (convs !! key_of u) u = true ->
  is_Some (select (handlers model) convs u).
Proof.
  unfold routed, handlers, select, conversation_check, conv_handler,
    entry_points, states, fallbacks,
    CommandHandler, CallbackQueryHandler, MessageHandler,
    text_not_command, filters.TEXT, filters.COMMAND.
  destruct u as [chat usr [[d]|] [[txt [c|]]|]]; simpl;
    try discriminate;
    destruct (convs !! _) as [s|] eqn:Hstate; simpl;
    try (destruct (decide (s = ASK_AI_QUESTION)) as [-> | Hs];
         [rewrite lookup_singleton_eq
         | rewrite lookup_singleton_ne by done]; simpl);
    repeat match goal with
    | |- context [truthy ?t] => destruct (truthy t); simpl; try discriminate
    | |- context [String.eqb ?c ?s] =>
        destruct (String.eqb c s) eqn:?; simpl; eauto
    | |- context [anchored_match ?p ?d] =>
        destruct (anchored_match p d) eqn:?; simpl; eauto
    | |- context [bool_decide ?P] =>
        destruct (bool_decide_reflect P); simpl; try discriminate; eauto
    end;
    try (intros; discriminate); try congruence; eauto.
Qed.

(** C6, as stated, fails: at start-up a command that is not registered is
    accepted by no handler, so the event is dropped without a response. *)
Lemma unregistered_command_gets_no_response :
  let a := main (File None) in
  let a' := process_update (handlers None) a (command "foo") in
  select (handlers None) (conversations a) (command "foo") = None /\
  a' = a /\
  outbox (world a') = [].
Proof. repeat split. Qed.

(** C6, amended.  An update that a registered handler accepts is handled
    by exactly one handler, the first registered one that accepts it, and
    what is sent is that handler's reply alone: one or two messages; when
    the update is a button press, exactly one acknowledgement, sent before
    anything else; when it is a message, no acknowledgement.  The start
    and help commands, a press of the catalog button, a press of the
    "ask AI" button while the session is idle, any text that is not a
    command, and the done command while the conversation waits for a
    question are all accepted by a handler. *)
Theorem routed_event_gets_one_response
    (model : option GenerativeModel) (a : Application) (u : Update) :
  (forall s,
     select (handlers model) (conversations a) u = Some s ->
     world (process_update (handlers model) a u) =
       snd (callback (selected_handler s) u (world a)) /\
     exists l,
       world (process_update (handlers model) a u) = sent (world a) l /\
       (1 <= count_if is_message l <= 2)%nat /\
       (message u = None ->
        exists rest,
          l = answer_callback_query :: rest /\
          count_if is_acknowledgement rest = 0%nat) /\
       (callback_query u = None -> count_if is_acknowledgement l = 0%nat)) /\
  (routed (conversations a !! key_of u) u = true ->
   is_Some (select (handlers model) (conversations a) u)).
Proof.
  split.
  - intros s Hsel. rewrite (process_update_world _ _ _ _ Hsel).
    split; [reflexivity |].
    apply (select_all responds _ _ _ _ (handlers_respond model) Hsel).
    by apply select_accepts in Hsel.
  - apply routed_selected.
Qed.

Lemma routed_event_gets_one_response_witness :
  let a := main (File None) in
  (exists l,
     world (process_update (handlers None) a (press "show_products"))
     = sent (world a) l /\
     (1 <= count_if is_message l <= 2)%nat /\
     (message (press "show_products") = None ->
      exists rest,
        l = answer_callback_query :: rest /\
        count_if is_acknowledgement rest = 0%nat) /\
     (callback_query (press "show_products") = None ->
      count_if is_acknowledgement l = 0%nat)) /\
  is_Some (select (handlers None) (conversations a) (say "hello")).
Proof.
  intros a. split.
  - eapply (proj1 (routed_event_gets_one_response None a
                     (press "show_products"))).
    reflexivity.
  - apply (proj2 (routed_event_gets_one_response None a (say "hello"))).
    reflexivity.
Defined.

(** * Further properties of the router and of the runs *)

Lemma select_route_table model convs u :
  select (handlers model) convs u =
    route_selected model <$> route (convs !! key_of u) u.
Proof.
  unfold route, is_command, is_plain_text, pressed, handlers, select,
    conversation_check, conv_handler, entry_points, states, fallbacks,
    CommandHandler, CallbackQueryHandler, MessageHandler,
    text_not_command, filters.TEXT, filters.COMMAND.
  destruct u as [chat usr [[d]|] [[txt [c|]]|]]; simpl;
    destruct (convs !! _) as [s|] eqn:Hstate; simpl;
    try (destruct (Z.eqb_spec s ASK_AI_QUESTION) as [-> | Hs];
         [rewrite lookup_singleton_eq
         | rewrite lookup_singleton_ne by done]; simpl);
    repeat match goal with
    | |- context [truthy ?t] => destruct (truthy t); simpl
    | |- context [String.eqb ?c ?s] => destruct (String.eqb c s); simpl
    | |- context [anchored_match ?p ?d] =>
        destruct (anchored_match p d); simpl
    end;
    reflexivity.
Qed.

Lemma route_accepts model st u r :
  route st u = Some r -> check_update (route_handler model r) u = true.
Proof.
  intros Hr.
  pose (convs := match st with
                 | Some s => {[ key_of u := s ]}
                 | None => ∅
                 end : gmap ConversationKey Z).
  assert (Hst : convs !! key_of u = st).
  { subst convs. destruct st; [apply lookup_singleton_eq | apply lookup_empty]. }
  pose proof (select_route_table model convs u) as Hsel.
  rewrite Hst, Hr in Hsel.
  change (route_selected model <$> Some r)
    with (Some (route_selected model r)) in Hsel.
  apply select_accepts in Hsel.
  unfold route_selected in Hsel. by destruct (in_conversation r).
Qed.

Lemma returning_none_eq (f : Update -> M unit) u w :
  returning_none f u w =
    match f u w with
    | (Return _, w') => (Return None, w')
    | (Raise e, w') => (Raise e, w')
    end.
Proof. unfold returning_none, bind, ret. by destruct (f u w) as [[s|e] w']. Qed.

Lemma route_callback model r u w :
  check_update (route_handler model r) u = true ->
  callback (route_handler model r) u w =
    (Return (fst (route_reply model r u w)),
     sent w (snd (route_reply model r u w))).
Proof.
  destruct r; simpl; intros Hcheck.
  - destruct (message u) eqn:Hm; [| done].
    rewrite returning_none_eq, start_command_eq by (by rewrite Hm). done.
  - destruct (message u) eqn:Hm; [| done].
    rewrite returning_none_eq, help_command_eq by (by rewrite Hm). done.
  - destruct (callback_query u) eqn:Hq; [| done].
    rewrite returning_none_eq, show_products_callback_eq by (by rewrite Hq).
    done.
  - destruct (callback_query u) eqn:Hq; [| done].
    rewrite returning_state_eq, ask_ai_entry_point_eq, Hq.
    by destruct model.
  - destruct (message u) as [m|] eqn:Hm; [| done].
    apply andb_prop in Hcheck as [Htext _]. unfold filters.TEXT in Htext.
    rewrite returning_state_eq, handle_ai_question_eq, Hm, Htext.
    by destruct model.
  - destruct (message u) eqn:Hm; [| done].
    by rewrite returning_state_eq, done_ai_dialog_eq, Hm.
  - destruct (message u) eqn:Hm; [| done].
    rewrite returning_none_eq, unknown_command_eq by (by rewrite Hm). done.
Qed.

Lemma process_update_step model a u :
  process_update (handlers model) a u = step model a u.
Proof.
  unfold process_update, step. rewrite select_route_table.
  destruct (route (conversations a !! key_of u) u) as [r|] eqn:Hr;
    [| reflexivity].
  change (route_selected model <$> Some r)
    with (Some (route_selected model r)).
  pose proof (route_accepts model _ _ _ Hr) as Hcheck.
  unfold route_selected.
  destruct (in_conversation r); rewrite (route_callback _ _ _ _ Hcheck);
    reflexivity.
Qed.

Lemma route_question_waiting st u :
  route st u = Some to_question -> st = Some ASK_AI_QUESTION.
Proof.
  unfold route.
  destruct (is_command "start" u); [done |].
  destruct (is_command "help" u); [done |].
  destruct (pressed "show_products" u); [done |].
  destruct st as [s|].
  - destruct (Z.eqb_spec s ASK_AI_QUESTION) as [-> | Hs]; [done |].
    destruct (is_command "done" u); [done |].
    by destruct (is_plain_text u).
  - destruct (pressed "ask_ai" u); [done |].
    by destruct (is_plain_text u).
Qed.

Lemma step_sends model a u :
  exists l,
    world (step model a u) = sent (world a) l /\
    (count_if is_ai_call l <= 1)%nat /\
    (model = None -> count_if is_ai_call l = 0%nat) /\
    (conversations a !! key_of u <> Some ASK_AI_QUESTION ->
     count_if is_ai_call l = 0%nat).
Proof.
  unfold step.
  destruct (route (conversations a !! key_of u) u) as [r|] eqn:Hr.
  - exists (snd (route_reply model r u (world a))).
    split; [reflexivity |].
    destruct r; simpl.
    + unfold count_if; simpl; repeat split; intros; lia.
    + unfold count_if; simpl; repeat split; intros; lia.
    + destruct (fst (get_products (world a))) as [[|p ps]|e];
        unfold count_if; simpl; repeat split; intros; lia.
    + destruct model; unfold count_if; simpl; repeat split; intros; lia.
    + apply route_question_waiting in Hr.
      destruct model; unfold count_if; simpl; repeat split; intros;
        first [lia | congruence].
    + unfold count_if; simpl; repeat split; intros; lia.
    + unfold count_if; simpl; repeat split; intros; lia.
  - exists []. rewrite sent_nil. unfold count_if. simpl.
    repeat split; intros; lia.
Qed.

(** X1.  The registration of [main] is a decision table.  The first-match
    search over the registered handlers picks exactly the handler that
    [route] names: start, then help, then the catalog button, then the
    conversation (its entry point when no state is stored; the question
    handler, then done, when the state is [ASK_AI_QUESTION]; done alone for
    any other stored value), then the catch-all for plain text.  One
    processed update sends exactly the reply of that route, and only a
    route of the conversation touches the stored state. *)
Theorem router_is_decision_table
    (model : option GenerativeModel) (a : Application) (u : Update) :
  select (handlers model) (conversations a) u =
    route_selected model <$> route (conversations a !! key_of u) u /\
  process_update (handlers model) a u = step model a u.
Proof. split; [apply select_route_table | apply process_update_step]. Qed.

(** X4.  One update causes at most one request to the provider, and none
    when no model is configured or when the session of the update is not
    in state [ASK_AI_QUESTION]. *)
Theorem provider_is_asked_only_for_a_waiting_session
    (model : option GenerativeModel) (a : Application) (u : Update) :
  let before := count_if is_ai_call (outbox (world a)) in
  let after :=
    count_if is_ai_call (outbox (world (process_update (handlers model) a u)))
  in
  (before <= after <= before + 1)%nat /\
  (model = None -> after = before) /\
  (conversations a !! key_of u <> Some ASK_AI_QUESTION -> after = before).
Proof.
  intros before after. subst before after. rewrite process_update_step.
  destruct (step_sends model a u) as (l & -> & Hone & Hnone & Hidle).
  simpl. rewrite count_if_app.
  split; [lia |]. split; intros H; [rewrite Hnone | rewrite Hidle]; done || lia.
Qed.

Lemma provider_is_asked_only_for_a_waiting_session_witness :
  count_if is_ai_call
    (outbox (world (process_update (handlers (Some echo))
                      (main (File None)) (say "hi")))) = 0%nat.
Proof.
  pose proof (provider_is_asked_only_for_a_waiting_session (Some echo)
                (main (File None)) (say "hi")) as (_ & _ & Hidle).
  rewrite Hidle; [reflexivity | discriminate].
Defined.

Lemma update_state_other (ns : option Z) (k k' : ConversationKey)
    (convs : gmap ConversationKey Z) :
  k' <> k -> update_state ns k convs !! k' = convs !! k'.
Proof.
  intros Hne. unfold update_state. destruct ns as [s|]; [| done].
  destruct (Z.eqb s END).
  - destruct (convs !! k); [| done]. by apply lookup_delete_ne.
  - by apply lookup_insert_ne.
Qed.

Lemma process_update_other (rs : list Registration) (a : Application)
    (u : Update) (k : ConversationKey) :
  k <> key_of u ->
  conversations (process_update rs a u) !! k = conversations a !! k.
Proof.
  intros Hne. unfold process_update.
  destruct (select rs (conversations a) u) as [[h|h]|]; [done | | done].
  destruct (callback h u (world a)) as [[ns|e] w]; [| done].
  simpl. by apply update_state_other.
Qed.

(** X10.  Sessions do not interfere: updates from other chats or users
    leave the stored state of a session as it was, for any registration
    of handlers. *)
Theorem sessions_are_isolated
    (rs : list Registration) (a : Application) (us : list Update)
    (k : ConversationKey) :
  Forall (fun u => key_of u <> k) us ->
  conversations (run rs a us) !! k = conversations a !! k.
Proof.
  intros Hus. revert a. unfold run.
  induction Hus as [|u us Hu _ IH]; intros a; simpl; [done |].
  rewrite IH. by apply process_update_other.
Qed.

Lemma sessions_are_isolated_witness :
  conversations (run (handlers (Some echo)) waiting
                   [ {| effective_chat := 2; effective_user := ann;
                        callback_query := None;
                        message := Some {| text := Some "/done";
                                           bot_command := Some "done" |} |} ])
    !! key_of (say "hi") = Some ASK_AI_QUESTION.
Proof.
  rewrite (sessions_are_isolated (handlers (Some echo)) waiting _
             (key_of (say "hi"))).
  - apply lookup_singleton_eq.
  - constructor; [discriminate | constructor].
Defined.

Lemma step_unconfigured a u :
  conversations a = ∅ ->
  conversations (step None a u) = ∅.
Proof.
  intros Ha. unfold step. rewrite Ha, lookup_empty.
  destruct (route None u) as [r|] eqn:Hr; [| exact Ha].
  simpl. destruct r; simpl; try exact Ha; reflexivity.
Qed.

Lemma unconfigured_run (us : list Update) (a : Application) :
  conversations a = ∅ ->
  conversations (run (handlers None) a us) = ∅ /\
  count_if is_ai_call (outbox (world (run (handlers None) a us)))
  = count_if is_ai_call (outbox (world a)).
Proof.
  revert a. unfold run.
  induction us as [|u us IH]; intros a Ha; simpl; [done |].
  rewrite process_update_step.
  destruct (IH (step None a u) (step_unconfigured a u Ha)) as [Hc Hn].
  split; [exact Hc |]. rewrite Hn.
  destruct (step_sends None a u) as (l & Hw & _ & Hnone & _).
  rewrite Hw. simpl. rewrite count_if_app, Hnone by done. lia.
Qed.

(** X3.  Without a model no conversation is ever opened: whatever the
    store and whatever updates arrive after start-up, no session has a
    stored state and no request to the provider has been made. *)
Theorem unconfigured_bot_never_opens_a_conversation
    (d : Database) (us : list Update) :
  let a := run (handlers None) (main d) us in
  conversations a = ∅ /\
  count_if is_ai_call (outbox (world a)) = 0%nat.
Proof.
  intros a. subst a.
  destruct (unconfigured_run us (main d) eq_refl) as [Hc Hn].
  split; [exact Hc |]. rewrite Hn. simpl. by rewrite init_db_outbox.
Qed.

Lemma pressed_without_press p u : callback_query u = None -> pressed p u = false.
Proof. unfold pressed. by intros ->. Qed.

Lemma is_command_without_message c u :
  message u = None -> is_command c u = false.
Proof. unfold is_command. by intros ->. Qed.

Lemma is_plain_text_without_message u :
  message u = None -> is_plain_text u = false.
Proof. unfold is_plain_text. by intros ->. Qed.

Lemma is_command_of_plain_text c u :
  is_plain_text u = true -> is_command c u = false.
Proof.
  unfold is_plain_text, is_command, text_not_command, filters.COMMAND.
  destruct (message u) as [m|]; [| done].
  destruct (bot_command m); [| done].
  by rewrite andb_false_r.
Qed.

Lemma is_command_named c c' u m :
  message u = Some m -> bot_command m = Some c' ->
  is_command c u = truthy (text m) && String.eqb c' c.
Proof. unfold is_command. by intros -> ->. Qed.

Lemma is_plain_text_of_command u m c :
  message u = Some m -> bot_command m = Some c -> is_plain_text u = false.
Proof.
  unfold is_plain_text, text_not_command, filters.COMMAND.
  intros -> ->. by rewrite andb_false_r.
Qed.

Lemma string_append_assoc (a b c : string) : (a ++ b) ++ c = a ++ (b ++ c).
Proof.
  induction a as [|x a IH]; [done |].
  change (String x ((a ++ b) ++ c) = String x (a ++ (b ++ c))).
  by rewrite IH.
Qed.

Lemma string_append_empty (a : string) : a ++ "" = a.
Proof.
  induction a as [|x a IH]; [done |].
  change (String x (a ++ "") = String x a). by rewrite IH.
Qed.

Lemma listing_from (products : list Product) (acc : string) :
  fold_left (fun response_text p => response_text ++ product_block p)
    products acc = acc ++ blocks products.
Proof.
  revert acc. induction products as [|p ps IH]; intros acc.
  - simpl. by rewrite string_append_empty.
  - cbn [fold_left]. rewrite IH.
    change (blocks (p :: ps)) with (product_block p ++ blocks ps).
    by rewrite string_append_assoc.
Qed.

Lemma init_db_leaves_products w x :
  db w = File x ->
  exists t,
    db (snd (init_db w)) = File (Some t) /\ rows t <> [] /\
    forall t0, x = Some t0 -> exists added, rows t = (rows t0 ++ added)%list.
Proof.
  destruct w as [d o]. simpl. intros ->.
  destruct x as [[[|r rs] s]|]; eexists; (split; [reflexivity |]);
    (split; [discriminate |]); intros t0 [= <-]; simpl.
  - by eexists.
  - exists []. by rewrite app_nil_r.
Qed.

Lemma run_sends model us a :
  db (world (run (handlers model) a us)) = db (world a) /\
  exists l,
    outbox (world (run (handlers model) a us)) = (outbox (world a) ++ l)%list /\
    (count_if is_ai_call l <= length us)%nat.
Proof.
  revert a. unfold run.
  induction us as [|u us IH]; intros a; simpl.
  - split; [reflexivity |]. exists []. by rewrite app_nil_r.
  - destruct (IH (process_update (handlers model) a u)) as (Hdb & l & Hout & Hn).
    rewrite process_update_step in Hdb, Hout |- *.
    destruct (step_sends model a u) as (l0 & Hw & H1 & _).
    rewrite Hw in Hdb, Hout. split; [exact Hdb |].
    exists (l0 ++ l)%list. split.
    + rewrite Hout. simpl. by rewrite app_assoc.
    + rewrite count_if_app. lia.
Qed.

(** X2.  Handling updates never writes to the store and never takes back
    what was sent: after any sequence of updates the database is the one
    the run started from, the record of outside calls is the old one
    extended, and it holds at most one provider request per update. *)
Theorem store_is_read_only_after_startup
    (model : option GenerativeModel) (a : Application) (us : list Update) :
  db (world (run (handlers model) a us)) = db (world a) /\
  exists l,
    outbox (world (run (handlers model) a us)) = (outbox (world a) ++ l)%list /\
    (count_if is_ai_call l <= length us)%nat.
Proof. apply run_sends. Qed.

Lemma init_db_refused w x :
  db w = ReadOnly x -> init_db w = (Return tt, w).
Proof.
  destruct w as [d o]. simpl. intros ->.
  destruct x as [[[|r rs] s]|]; reflexivity.
Qed.

(** X15.  [init_db] never raises and sends nothing, whatever the store.
    A file that cannot be opened, and a file that opens but refuses
    writes, are left exactly as they were, with the table missing or
    empty if it was: the failure is swallowed.  A file that takes the
    writes ends up with a products table that has at least one row and
    that still starts with the rows it had. *)
Theorem init_db_swallows_failures_and_keeps_rows (w : World) :
  fst (init_db w) = Return tt /\
  outbox (snd (init_db w)) = outbox w /\
  match db w with
  | Unreachable | ReadOnly _ => snd (init_db w) = w
  | File x =>
      exists t,
        db (snd (init_db w)) = File (Some t) /\ rows t <> [] /\
        forall t0, x = Some t0 ->
          exists added, rows t = (rows t0 ++ added)%list
  end.
Proof.
  split; [apply init_db_returns |]. split; [apply init_db_outbox |].
  destruct (db w) as [|x|x] eqn:Hdb.
  - destruct w as [d o]. simpl in Hdb. by subst d.
  - by apply init_db_leaves_products.
  - by rewrite (init_db_refused w x Hdb).
Qed.

Lemma init_db_swallows_failures_and_keeps_rows_witness :
  snd (init_db {| db := ReadOnly (Some {| rows := []; seq := 0 |});
                  outbox := [] |})
  = {| db := ReadOnly (Some {| rows := []; seq := 0 |}); outbox := [] |} /\
  exists t,
    db (snd (init_db {| db := File (Some {| rows := []; seq := 5 |});
                        outbox := [] |})) = File (Some t) /\
    rows t <> [] /\
    exists added, rows t = ([] ++ added)%list.
Proof.
  split.
  - exact (proj2 (proj2 (init_db_swallows_failures_and_keeps_rows
                           {| db := ReadOnly (Some {| rows := []; seq := 0 |});
                              outbox := [] |}))).
  - pose proof (init_db_swallows_failures_and_keeps_rows
                  {| db := File (Some {| rows := []; seq := 5 |});
                     outbox := [] |}) as (_ & _ & t & Hdb & Hrows & Hkeep).
    exists t. split; [exact Hdb |]. split; [exact Hrows |].
    exact (Hkeep {| rows := []; seq := 5 |} eq_refl).
Defined.

(** X6.  On a table with at least one row the catalog responder
    acknowledges the press, replaces the message by the header followed by
    one block per row in table order (HTML), and sends the menu. *)
Theorem listing_is_header_then_blocks
    (u : Update) (q : CallbackQuery) (w : World) (t : Table) :
  callback_query u = Some q ->
  db w = File (Some t) ->
  rows t <> [] ->
  show_products_callback u w =
    (Return tt,
     sent w [ answer_callback_query;
              edit_message_text
                (LISTING_HEADER ++ blocks (map selected (rows t)))
                (Some "HTML");
              reply_text NEXT_ACTION (Some main_keyboard) ]).
Proof.
  intros Hq Hdb Hrows.
  rewrite show_products_callback_eq by (by rewrite Hq).
  rewrite get_products_total, Hdb. simpl fst.
  destruct (rows t) as [|r rs]; [done |].
  change (map selected (r :: rs)) with (selected r :: map selected rs).
  cbv iota. unfold listing. by rewrite listing_from.
Qed.

Lemma listing_is_header_then_blocks_witness :
  let w := snd (init_db {| db := File None; outbox := [] |}) in
  exists body,
    outbox (snd (show_products_callback (press "show_products") w)) =
      [ answer_callback_query;
        edit_message_text (LISTING_HEADER ++ body) (Some "HTML");
        reply_text NEXT_ACTION (Some main_keyboard) ].
Proof.
  intros w. eexists.
  erewrite (listing_is_header_then_blocks (press "show_products")
              {| data := "show_products" |} w);
    [reflexivity | reflexivity | reflexivity | discriminate].
Defined.

(** X5.  What the catalog button shows is settled at start-up.  After any
    sequence of updates a press of the button is acknowledged, answered
    with the listing of exactly the products [get_products] returned right
    after [init_db] (or with the no-products notice when it returned
    none, for instance because the seeding was refused), followed by the
    menu; the conversation states are left alone. *)
Theorem catalog_is_fixed_at_startup
    (model : option GenerativeModel) (d : Database) (us : list Update)
    (u : Update) (q : CallbackQuery) :
  callback_query u = Some q ->
  anchored_match "show_products" (data q) = true ->
  message u = None ->
  let a := run (handlers model) (main d) us in
  process_update (handlers model) a u =
    {| world :=
         sent (world a)
           [ answer_callback_query;
             match fst (get_products (world (main d))) with
             | Return (p :: ps) =>
                 edit_message_text (listing (p :: ps)) (Some "HTML")
             | _ => edit_message_text NO_PRODUCTS None
             end;
             reply_text NEXT_ACTION (Some main_keyboard) ];
       conversations := conversations a |}.
Proof.
  intros Hq Hd Hm a.
  destruct (run_sends model us (main d)) as [Hdb _]. fold a in Hdb.
  rewrite process_update_step. unfold step, route.
  rewrite !is_command_without_message by done.
  unfold pressed at 1. rewrite Hq, Hd. cbv iota.
  unfold route_reply, in_conversation. cbv iota. simpl snd.
  by rewrite !get_products_total, Hdb.
Qed.

Lemma catalog_is_fixed_at_startup_witness :
  let seeded := run (handlers None) (main (File None)) [say "hello"] in
  let refused :=
    run (handlers None) (main (ReadOnly (Some {| rows := []; seq := 0 |})))
      [say "hello"] in
  process_update (handlers None) seeded (press "show_products") =
    {| world :=
         sent (world seeded)
           [ answer_callback_query;
             edit_message_text (listing sample_products) (Some "HTML");
             reply_text NEXT_ACTION (Some main_keyboard) ];
       conversations := conversations seeded |} /\
  process_update (handlers None) refused (press "show_products") =
    {| world :=
         sent (world refused)
           [ answer_callback_query;
             edit_message_text NO_PRODUCTS None;
             reply_text NEXT_ACTION (Some main_keyboard) ];
       conversations := conversations refused |}.
Proof.
  split.
  - exact (catalog_is_fixed_at_startup None (File None) [say "hello"]
             (press "show_products") {| data := "show_products" |}
             eq_refl eq_refl eq_refl).
  - exact (catalog_is_fixed_at_startup None
             (ReadOnly (Some {| rows := []; seq := 0 |})) [say "hello"]
             (press "show_products") {| data := "show_products" |}
             eq_refl eq_refl eq_refl).
Defined.

Lemma entry_step g a u q :
  callback_query u = Some q -> data q = "ask_ai" -> message u = None ->
  conversations a !! key_of u = None ->
  step (Some g) a u =
    {| world :=
         sent (world a)
           [ answer_callback_query;
             reply_text AI_READY None;
             reply_text NEXT_ACTION (Some main_keyboard) ];
       conversations := <[ key_of u := ASK_AI_QUESTION ]> (conversations a) |}.
Proof.
  intros Hq Hd Hm Hidle. unfold step, route.
  rewrite !is_command_without_message by done.
  unfold pressed. rewrite Hq, Hd, Hidle.
  change (anchored_match "show_products" "ask_ai") with false.
  change (anchored_match "ask_ai" "ask_ai") with true.
  reflexivity.
Qed.

Lemma done_step model a u m :
  message u = Some m -> callback_query u = None ->
  truthy (text m) = true -> bot_command m = Some "done" ->
  conversations a !! key_of u = Some ASK_AI_QUESTION ->
  step model a u =
    {| world := sent (world a) [reply_text AI_CLOSING (Some main_keyboard)];
       conversations := delete (key_of u) (conversations a) |}.
Proof.
  intros Hm Hq Htext Hcmd Hstate. unfold step, route.
  rewrite !(is_command_named _ "done" u m Hm Hcmd), Htext.
  rewrite (is_plain_text_of_command u m "done" Hm Hcmd).
  rewrite (pressed_without_press _ u Hq), Hstate.
  change (Z.eqb ASK_AI_QUESTION ASK_AI_QUESTION) with true.
  change (String.eqb "done" "start") with false.
  change (String.eqb "done" "help") with false.
  change (String.eqb "done" "done") with true.
  simpl. by rewrite Hstate.
Qed.

Lemma question_step g a u :
  question_from (key_of u) u ->
  conversations a !! key_of u = Some ASK_AI_QUESTION ->
  exists question reply,
    step (Some g) a u =
      {| world :=
           sent (world a)
             [ send_action "typing"; generate_content question;
               reply_text reply None ];
         conversations := conversations a |}.
Proof.
  intros (_ & Htext & Hq) Hstate. unfold step, route.
  rewrite !(is_command_of_plain_text _ u Htext).
  rewrite (pressed_without_press _ u Hq), Hstate, Htext.
  change (Z.eqb ASK_AI_QUESTION ASK_AI_QUESTION) with true.
  cbv iota. unfold route_reply, in_conversation. cbv iota. simpl fst. simpl snd.
  rewrite update_state_same by done. eauto.
Qed.

(** X7.  With a model configured, a press of the "ask AI" button from an
    idle session is acknowledged, answered with the invitation and the
    menu, and stores [ASK_AI_QUESTION] for that session. *)
Theorem entry_opens_the_conversation
    (g : GenerativeModel) (a : Application) (u : Update) (q : CallbackQuery) :
  callback_query u = Some q -> data q = "ask_ai" -> message u = None ->
  conversations a !! key_of u = None ->
  let a' := process_update (handlers (Some g)) a u in
  a' = {| world :=
            sent (world a)
              [ answer_callback_query;
                reply_text AI_READY None;
                reply_text NEXT_ACTION (Some main_keyboard) ];
          conversations :=
            <[ key_of u := ASK_AI_QUESTION ]> (conversations a) |} /\
  conversations a' !! key_of u = Some ASK_AI_QUESTION.
Proof.
  intros Hq Hd Hm Hidle a'. subst a'.
  rewrite process_update_step, (entry_step g a u q Hq Hd Hm Hidle).
  split; [reflexivity |]. simpl. apply lookup_insert_eq.
Qed.

Lemma entry_opens_the_conversation_witness :
  conversations (process_update (handlers (Some echo)) (main (File None))
                   (press "ask_ai"))
    !! key_of (press "ask_ai") = Some ASK_AI_QUESTION.
Proof.
  exact (proj2 (entry_opens_the_conversation echo (main (File None))
                  (press "ask_ai") {| data := "ask_ai" |}
                  eq_refl eq_refl eq_refl eq_refl)).
Defined.

(** X8.  Opening the AI conversation and closing it with the done command
    from the same chat and user puts the conversation states back exactly
    as they were; what has been sent is the acknowledgement of the press,
    the invitation, the menu, and the closing reply with the menu. *)
Theorem open_then_done_restores_the_sessions
    (g : GenerativeModel) (a : Application) (u1 u2 : Update)
    (q : CallbackQuery) (m : Message) :
  callback_query u1 = Some q -> data q = "ask_ai" -> message u1 = None ->
  message u2 = Some m -> callback_query u2 = None ->
  truthy (text m) = true -> bot_command m = Some "done" ->
  key_of u2 = key_of u1 ->
  conversations a !! key_of u1 = None ->
  run (handlers (Some g)) a [u1; u2] =
    {| world :=
         sent (world a)
           [ answer_callback_query;
             reply_text AI_READY None;
             reply_text NEXT_ACTION (Some main_keyboard);
             reply_text AI_CLOSING (Some main_keyboard) ];
       conversations := conversations a |}.
Proof.
  intros Hq Hd Hm1 Hm2 Hq2 Htext Hcmd Hkey Hidle.
  unfold run. simpl.
  rewrite !process_update_step, (entry_step g a u1 q Hq Hd Hm1 Hidle).
  rewrite (done_step (Some g) _ u2 m Hm2 Hq2 Htext Hcmd).
  - simpl. rewrite sent_sent, Hkey, delete_insert_eq. simpl.
    f_equal. by apply delete_id.
  - simpl. rewrite Hkey. apply lookup_insert_eq.
Qed.

Lemma open_then_done_restores_the_sessions_witness :
  conversations (run (handlers (Some echo)) (main (File None))
                   [press "ask_ai"; command "done"])
  = conversations (main (File None)).
Proof.
  rewrite (open_then_done_restores_the_sessions echo (main (File None))
             (press "ask_ai") (command "done") {| data := "ask_ai" |}
             {| text := Some "/done"; bot_command := Some "done" |}
             eq_refl eq_refl eq_refl eq_refl eq_refl eq_refl eq_refl
             eq_refl eq_refl).
  reflexivity.
Defined.

(** X9.  While a session waits for a question, any number of plain texts
    from it keep it waiting: the conversation states do not change, and
    each text causes exactly one request to the provider and exactly one
    message back, whether the provider answers or fails. *)
Theorem questions_keep_the_session_waiting
    (g : GenerativeModel) (k : ConversationKey) (us : list Update)
    (a : Application) :
  conversations a !! k = Some ASK_AI_QUESTION ->
  Forall (question_from k) us ->
  let a' := run (handlers (Some g)) a us in
  conversations a' = conversations a /\
  count_if is_ai_call (outbox (world a')) =
    (count_if is_ai_call (outbox (world a)) + length us)%nat /\
  count_if is_message (outbox (world a')) =
    (count_if is_message (outbox (world a)) + length us)%nat.
Proof.
  intros Hstate Hus. revert a Hstate. unfold run.
  induction Hus as [|u us Hu _ IH]; intros a Hstate; simpl.
  - repeat split; lia.
  - rewrite process_update_step.
    pose proof Hu as (Hkey & _). subst k.
    destruct (question_step g a u Hu Hstate) as (question & reply & Hstep).
    rewrite Hstep.
    match goal with
    | |- context [fold_left _ us ?b] =>
        destruct (IH b Hstate) as (Hc & Hai & Hmsg)
    end.
    rewrite Hc, Hai, Hmsg. simpl. rewrite !count_if_app.
    unfold count_if. simpl. repeat split; lia.
Qed.

Lemma questions_keep_the_session_waiting_witness :
  let a' := run (handlers (Some echo)) waiting [say "hi"; say "again"] in
  conversations a' = conversations waiting /\
  count_if is_ai_call (outbox (world a')) = 2%nat.
Proof.
  intros a'.
  destruct (questions_keep_the_session_waiting echo (key_of (say "hi"))
              [say "hi"; say "again"] waiting) as (Hc & Hai & _).
  - apply lookup_singleton_eq.
  - repeat constructor.
  - split; [exact Hc | exact Hai].
Defined.

(** X11.  A command other than start, help and done is ignored in every
    state: nothing is sent and nothing changes, because the catch-all is
    registered for non-command text only. *)
Theorem unregistered_command_is_ignored
    (model : option GenerativeModel) (a : Application) (u : Update)
    (m : Message) (c : string) :
  message u = Some m -> callback_query u = None ->
  bot_command m = Some c ->
  c <> "start" -> c <> "help" -> c <> "done" ->
  process_update (handlers model) a u = a.
Proof.
  intros Hm Hq Hcmd Hstart Hhelp Hdone.
  rewrite process_update_step. unfold step, route.
  rewrite !(is_command_named _ c u m Hm Hcmd).
  rewrite (is_plain_text_of_command u m c Hm Hcmd).
  rewrite !(pressed_without_press _ u Hq).
  apply String.eqb_neq in Hstart, Hhelp, Hdone.
  rewrite Hstart, Hhelp, Hdone, andb_false_r.
  destruct (conversations a !! key_of u) as [s|]; [| done].
  by destruct (Z.eqb s ASK_AI_QUESTION).
Qed.

Lemma unregistered_command_is_ignored_witness :
  process_update (handlers (Some echo)) waiting (command "catalog") = waiting.
Proof.
  apply (unregistered_command_is_ignored (Some echo) waiting
           (command "catalog")
           {| text := Some "/catalog"; bot_command := Some "catalog" |}
           "catalog" eq_refl eq_refl eq_refl);
    discriminate.
Defined.

(** X12.  While a session has a stored conversation state, a press of any
    button other than the catalog one is dropped without even an
    acknowledgement; this includes the "ask AI" button the entry point
    itself has just sent again. *)
Theorem press_inside_conversation_is_dropped
    (model : option GenerativeModel) (a : Application) (u : Update)
    (q : CallbackQuery) (s : Z) :
  callback_query u = Some q -> message u = None ->
  anchored_match "show_products" (data q) = false ->
  conversations a !! key_of u = Some s ->
  process_update (handlers model) a u = a.
Proof.
  intros Hq Hm Hd Hstate.
  rewrite process_update_step. unfold step, route.
  rewrite !(is_command_without_message _ u Hm).
  rewrite (is_plain_text_without_message u Hm).
  unfold pressed. rewrite Hq, Hd, Hstate.
  by destruct (Z.eqb s ASK_AI_QUESTION).
Qed.

Lemma press_inside_conversation_is_dropped_witness :
  process_update (handlers (Some echo)) waiting (press "ask_ai") = waiting.
Proof.
  apply (press_inside_conversation_is_dropped (Some echo) waiting
           (press "ask_ai") {| data := "ask_ai" |} ASK_AI_QUESTION
           eq_refl eq_refl eq_refl).
  apply lookup_singleton_eq.
Defined.

Lemma is_command_exclusive c c' u :
  c <> c' -> is_command c u = true -> is_command c' u = false.
Proof.
  unfold is_command. intros Hne.
  destruct (message u) as [m|]; [| done].
  destruct (bot_command m) as [x|]; [| done].
  intros [_ Hc]%andb_prop. apply String.eqb_eq in Hc. subst x.
  apply String.eqb_neq in Hne. by rewrite Hne, andb_false_r.
Qed.

(** X13.  The start and help commands are answered the same way in every
    state, with the greeting and menu or with the help text, and they
    never change a conversation state: a session waiting for a question
    keeps waiting. *)
Theorem start_and_help_keep_the_conversation
    (model : option GenerativeModel) (a : Application) (u : Update) :
  (is_command "start" u = true ->
   process_update (handlers model) a u =
     {| world :=
          sent (world a)
            [reply_html
               ("Привет, " ++ mention_html (effective_user u)
                ++ "! Я бот-магазин. Выберите действие:")
               (Some main_keyboard)];
        conversations := conversations a |}) /\
  (is_command "help" u = true ->
   process_update (handlers model) a u =
     {| world := sent (world a) [reply_text HELP_TEXT None];
        conversations := conversations a |}).
Proof.
  split; intros Hc; rewrite process_update_step; unfold step, route.
  - by rewrite Hc.
  - rewrite (is_command_exclusive "help" "start" u) by done. by rewrite Hc.
Qed.

Lemma start_and_help_keep_the_conversation_witness :
  conversations (process_update (handlers (Some echo)) waiting
                   (command "start")) = conversations waiting /\
  process_update (handlers (Some echo)) waiting (command "help") =
    {| world := sent (world waiting) [reply_text HELP_TEXT None];
       conversations := conversations waiting |}.
Proof.
  split.
  - rewrite (proj1 (start_and_help_keep_the_conversation (Some echo) waiting
                      (command "start")) eq_refl).
    reflexivity.
  - exact (proj2 (start_and_help_keep_the_conversation (Some echo) waiting
                    (command "help")) eq_refl).
Defined.

(** X14.  A plain text from a session that is not waiting for a question
    gets the unknown-input reply with the menu, and the conversation
    states stay as they were. *)
Theorem free_text_outside_conversation_gets_fallback
    (model : option GenerativeModel) (a : Application) (u : Update) :
  is_plain_text u = true -> callback_query u = None ->
  conversations a !! key_of u <> Some ASK_AI_QUESTION ->
  process_update (handlers model) a u =
    {| world :=
         sent (world a) [reply_text UNKNOWN_INPUT (Some main_keyboard)];
       conversations := conversations a |}.
Proof.
  intros Htext Hq Hstate.
  rewrite process_update_step. unfold step, route.
  rewrite !(is_command_of_plain_text _ u Htext).
  rewrite !(pressed_without_press _ u Hq), Htext.
  destruct (conversations a !! key_of u) as [s|]; [| done].
  destruct (Z.eqb_spec s ASK_AI_QUESTION) as [-> | Hs]; done.
Qed.

Lemma free_text_outside_conversation_gets_fallback_witness :
  process_update (handlers (Some echo)) (main (File None)) (say "hello") =
    {| world :=
         sent (world (main (File None)))
           [reply_text UNKNOWN_INPUT (Some main_keyboard)];
       conversations := conversations (main (File None)) |}.
Proof.
  apply (free_text_outside_conversation_gets_fallback (Some echo)
           (main (File None)) (say "hello") eq_refl eq_refl).
  discriminate.
Defined.

(** X16.  A message without text (or with empty text) is ignored in every
    state, so the re-prompt branch of the question handler is never
    reached through the registration of [main]. *)
Theorem textless_message_is_ignored
    (model : option GenerativeModel) (a : Application) (u : Update)
    (m : Message) :
  message u = Some m -> callback_query u = None ->
  truthy (text m) = false ->
  process_update (handlers model) a u = a.
Proof.
  intros Hm Hq Htext.
  assert (Hcmd : forall c, is_command c u = false).
  { intros c. unfold is_command. rewrite Hm, Htext. by destruct (bot_command m). }
  assert (Hplain : is_plain_text u = false).
  { unfold is_plain_text, text_not_command, filters.TEXT. by rewrite Hm, Htext. }
  rewrite process_update_step. unfold step, route.
  rewrite !Hcmd, Hplain, !(pressed_without_press _ u Hq).
  destruct (conversations a !! key_of u) as [s|]; [| done].
  by destruct (Z.eqb s ASK_AI_QUESTION).
Qed.

Lemma textless_message_is_ignored_witness :
  process_update (handlers (Some echo)) waiting empty_text = waiting.
Proof.
  exact (textless_message_is_ignored (Some echo) waiting empty_text
           {| text := Some ""; bot_command := None |}
           eq_refl eq_refl eq_refl).
Defined.

(** X17.  Start-up: an administrator id that [int] rejects stops the
    module with that exception before the token is looked at; otherwise a
    missing or empty token exits with status 1; otherwise the bot is
    configured, whatever the provider does, and it holds a model only if
    the API key is non-empty and the provider returned that model. *)
Theorem startup_needs_token_and_numeric_admin
    (int : string -> outcome Z)
    (connect_model : string -> outcome GenerativeModel) (env : Environ) :
  (forall e,
     int (default "0" (ADMIN_TELEGRAM_ID env)) = Raise e ->
     configure int connect_model env = Crashed e) /\
  (forall admin,
     int (default "0" (ADMIN_TELEGRAM_ID env)) = Return admin ->
     truthy (TELEGRAM_BOT_TOKEN env) = false ->
     configure int connect_model env = Exited 1) /\
  (forall admin,
     int (default "0" (ADMIN_TELEGRAM_ID env)) = Return admin ->
     truthy (TELEGRAM_BOT_TOKEN env) = true ->
     exists model,
       configure int connect_model env = Configured model admin /\
       (forall g, model = Some g ->
          truthy (GOOGLE_API_KEY env) = true /\
          connect_model (default "" (GOOGLE_API_KEY env)) = Return g)).
Proof.
  unfold configure. split; [| split].
  - by intros e ->.
  - by intros admin -> ->.
  - intros admin -> ->. simpl negb. cbv iota.
    eexists. split; [reflexivity |].
    intros g. destruct (truthy (GOOGLE_API_KEY env)); [| done].
    destruct (connect_model _); [| done]. by intros [= ->].
Qed.

Lemma startup_needs_token_and_numeric_admin_witness :
  configure int_of_zero (fun _ => Return echo) bad_admin
  = Crashed (ProviderError "ValueError") /\
  configure int_of_zero (fun _ => Return echo) empty_token = Exited 1 /\
  exists model,
    configure int_of_zero (fun _ => Raise (ProviderError "503")) with_key
    = Configured model 0.
Proof.
  split; [| split].
  - exact (proj1 (startup_needs_token_and_numeric_admin int_of_zero
                    (fun _ => Return echo) bad_admin)
             (ProviderError "ValueError") eq_refl).
  - exact (proj1 (proj2 (startup_needs_token_and_numeric_admin int_of_zero
                           (fun _ => Return echo) empty_token))
             0 eq_refl eq_refl).
  - destruct (proj2 (proj2 (startup_needs_token_and_numeric_admin int_of_zero
                              (fun _ => Raise (ProviderError "503"))
                              with_key))
                0 eq_refl eq_refl) as (model & Hmodel & _).
    by exists model.
Defined.

(** X18.  A bot configured from an environment whose API key is missing
    or empty never opens a conversation and never contacts the provider,
    for any store and any sequence of updates. *)
Theorem no_key_means_no_conversation_ever
    (int : string -> outcome Z)
    (connect_model : string -> outcome GenerativeModel) (env : Environ)
    (model : option GenerativeModel) (admin : Z) (d : Database)
    (us : list Update) :
  configure int connect_model env = Configured model admin ->
  truthy (GOOGLE_API_KEY env) = false ->
  let a := run (handlers model) (main d) us in
  conversations a = ∅ /\
  count_if is_ai_call (outbox (world a)) = 0%nat.
Proof.
  unfold configure. cbv zeta. intros Hconf Hkey.
  destruct (int _) as [n|e]; [| done].
  destruct (negb _); [done |].
  rewrite Hkey in Hconf. injection Hconf as <- _.
  destruct (unconfigured_run us (main d) eq_refl) as [Hc Hn].
  split; [exact Hc |]. rewrite Hn. simpl. by rewrite init_db_outbox.
Qed.

Lemma no_key_means_no_conversation_ever_witness :
  conversations (run (handlers None) (main (File None))
                   [press "ask_ai"; say "hi"]) = ∅.
Proof.
  exact (proj1 (no_key_means_no_conversation_ever int_of_zero
                  (fun _ => Return echo)
                  {| TELEGRAM_BOT_TOKEN := Some "123:abc";
                     GOOGLE_API_KEY := None; ADMIN_TELEGRAM_ID := None |}
                  None 0 (File None) [press "ask_ai"; say "hi"]
                  eq_refl eq_refl)).
Defined.
